(** * Credit-risk scoring service: a shallow embedding and its properties

    The development embeds the scoring function of [main.py]
    ([calculate_risk_score]) and the synthetic-data generator of
    [generate_data.py] ([generate_application], [generate_dataset]).

    Python [float] is IEEE 754 binary64 with round-to-nearest-even, which is
    exactly what Rocq's primitive [float] implements, so the arithmetic of the
    source is kept as it is.  Python [int] is [Z].  Exceptions and the two
    sources of effects (the wall clock and the random generator) are threaded
    by a small monad. *)

From Stdlib Require Import ZArith List String Ascii Bool Lia Sorted Permutation.
From Stdlib Require Import PrimFloat SpecFloat FloatOps FloatAxioms.
Import ListNotations.

Set Warnings "-inexact-float".
Local Open Scope string_scope.
Local Open Scope list_scope.
Local Open Scope Z_scope.

(** ** The ambient world: wall clock, entropy, exceptions *)

(** A [datetime] value.  Only whole days are ever subtracted from it and only
    its calendar fields are printed, so the date is kept as the proleptic
    Gregorian ordinal that Python's [toordinal] returns (0001-01-01 is 1). *)
Record datetime := mk_datetime {
  toordinal : Z;
  hour : Z;
  minute : Z;
  second : Z;
  microsecond : Z
}.

(** The world holds every future reading of the clock and every future raw
    draw of the random generator, with a cursor into each. *)
Record World := mk_World {
  clock : nat -> datetime;
  clock_reads : nat;
  entropy : nat -> Z;
  entropy_draws : nat
}.

Inductive exn := ZeroDivisionError | OverflowError | IndexError | ValueError.

Inductive outcome (A : Type) :=
| Returns (a : A)
| Raises (e : exn).
Arguments Returns {A} a.
Arguments Raises {A} e.

Definition Py (A : Type) : Type := World -> outcome A * World.

Definition ret {A} (a : A) : Py A := fun w => (Returns a, w).

Definition raise {A} (e : exn) : Py A := fun w => (Raises e, w).

Definition bind {A B} (c : Py A) (k : A -> Py B) : Py B :=
  fun w => match c w with
           | (Returns a, w') => k a w'
           | (Raises e, w') => (Raises e, w')
           end.

Declare Scope py_scope.
Delimit Scope py_scope with py.
Notation "x <- c ;; k" := (bind c (fun x => k))
  (at level 61, c at next level, right associativity) : py_scope.
Local Open Scope py_scope.

(** [datetime.now()] *)
Definition datetime_now : Py datetime :=
  fun w => (Returns (clock w (clock_reads w)),
            mk_World (clock w) (S (clock_reads w)) (entropy w) (entropy_draws w)).

(** One raw draw of the generator behind the [random] module. *)
Definition random_raw : Py Z :=
  fun w => (Returns (Z.abs (entropy w (entropy_draws w))),
            mk_World (clock w) (clock_reads w) (entropy w) (S (entropy_draws w))).

(** ** Python numbers *)

Module PyNum.

(** The float nearest to an integer. *)
Definition to_float (n : Z) : float := SF2Prim (binary_normalize prec emax n 0 false).

(** [float(n)], also where an int meets a float in arithmetic: the nearest
    float, or [OverflowError] when there is none. *)
Definition float_of_int (n : Z) : Py float :=
  if PrimFloat.is_infinity (to_float n) then raise OverflowError else ret (to_float n).

(** [x / y] on floats: [ZeroDivisionError] on a zero divisor. *)
Definition float_truediv (x y : float) : Py float :=
  if PrimFloat.eqb y 0%float then raise ZeroDivisionError else ret (x / y)%float.

(** [x / n], a float by an int: the int is converted first. *)
Definition float_truediv_int (x : float) (n : Z) : Py float :=
  y <- float_of_int n ;; float_truediv x y.

Definition int_as_spec (n : Z) : spec_float :=
  match n with
  | Z0 => S754_zero false
  | Zpos p => S754_finite false p 0
  | Zneg p => S754_finite true p 0
  end.

(** An int that a float holds exactly without further ado: below 2^53. *)
Definition fits_mantissa (n : Z) : bool := Z.abs n <? 9007199254740992.

(** [a / b] on ints.  When both fit a float's mantissa they are converted and
    divided as floats; otherwise the exact quotient is rounded once. *)
Definition int_truediv (a b : Z) : Py float :=
  if b =? 0 then raise ZeroDivisionError
  else if fits_mantissa a && fits_mantissa b then ret (to_float a / to_float b)%float
  else match SFdiv prec emax (int_as_spec a) (int_as_spec b) with
       | S754_infinity _ => raise OverflowError
       | q => ret (SF2Prim q)
       end.

(** Round-half-even of the rational [n / d], [d > 0]. *)
Definition div_half_even (n d : Z) : Z :=
  let q := n / d in
  let r := n mod d in
  match 2 * r ?= d with
  | Lt => q
  | Gt => q + 1
  | Eq => if Z.even q then q else q + 1
  end.

(** [round(x, ndigits)] on a float, [0 <= ndigits]: the decimal with
    [ndigits] digits nearest to the exact value of [x] (ties to even), read
    back as the nearest float.  Infinities and NaN are returned as they are. *)
Definition round (x : float) (ndigits : Z) : float :=
  match Prim2SF x with
  | S754_finite s m e =>
      let scale := 10 ^ ndigits in
      let n := if 0 <=? e then Z.pos m * scale * 2 ^ e
               else div_half_even (Z.pos m * scale) (2 ^ (- e)) in
      match n with
      | Zpos p => SF2Prim (SFdiv prec emax (S754_finite s p 0) (int_as_spec scale))
      | _ => SF2Prim (S754_zero s)
      end
  | _ => x
  end.

(** A finite float truncated towards zero. *)
Definition truncate (x : float) : option Z :=
  match Prim2SF x with
  | S754_zero _ => Some 0
  | S754_finite s m e =>
      let a := if 0 <=? e then Z.pos m * 2 ^ e else Z.pos m / 2 ^ (- e) in
      Some (if s then - a else a)
  | _ => None
  end.

(** [int(x)] on a float: infinities raise [OverflowError], NaN [ValueError]. *)
Definition int_of_float (x : float) : Py Z :=
  match truncate x with
  | Some n => ret n
  | None => if PrimFloat.is_nan x then raise ValueError else raise OverflowError
  end.

End PyNum.

(** ** Python strings *)

Module PyStr.

Definition digit (d : Z) : ascii := ascii_of_N (48 + Z.to_N d).

(** The last [width] decimal digits of [n], zero padded: ["%0<width>d"]. *)
Fixpoint zero_padded (width : nat) (n : Z) : string :=
  match width with
  | O => EmptyString
  | S k => (zero_padded k (n / 10) ++ String (digit (n mod 10)) EmptyString)%string
  end.

End PyStr.

(** ** The [datetime] library, as far as the two programs use it *)

Module PyDatetime.

Definition MAXORDINAL : Z := 3652059.

Definition DAYS_IN_MONTH : list Z := [-1; 31; 28; 31; 30; 31; 30; 31; 31; 30; 31; 30; 31].
Definition DAYS_BEFORE_MONTH : list Z :=
  [-1; 0; 31; 59; 90; 120; 151; 181; 212; 243; 273; 304; 334].

Definition b2z (b : bool) : Z := if b then 1 else 0.

(** [_ord2ymd]: ordinal to (year, month, day); [Z.div_eucl] is [divmod]. *)
Definition ord2ymd (n : Z) : Z * Z * Z :=
  let n := n - 1 in
  let '(n400, n) := Z.div_eucl n 146097 in
  let year := n400 * 400 + 1 in
  let '(n100, n) := Z.div_eucl n 36524 in
  let '(n4, n) := Z.div_eucl n 1461 in
  let '(n1, n) := Z.div_eucl n 365 in
  let year := year + n100 * 100 + n4 * 4 + n1 in
  if (n1 =? 4) || (n100 =? 4) then (year - 1, 12, 31)
  else
    let leapyear := (n1 =? 3) && (negb (n4 =? 24) || (n100 =? 3)) in
    let month := Z.shiftr (n + 50) 5 in
    let preceding :=
      nth (Z.to_nat month) DAYS_BEFORE_MONTH 0 + b2z ((2 <? month) && leapyear) in
    if n <? preceding then
      let month := month - 1 in
      let preceding :=
        preceding - (nth (Z.to_nat month) DAYS_IN_MONTH 0 + b2z ((month =? 2) && leapyear)) in
      (year, month, n - preceding + 1)
    else (year, month, n - preceding + 1).

Definition year (d : datetime) : Z := fst (fst (ord2ymd (toordinal d))).
Definition month (d : datetime) : Z := snd (fst (ord2ymd (toordinal d))).
Definition day (d : datetime) : Z := snd (ord2ymd (toordinal d)).

(** [d - timedelta(days=k)] *)
Definition sub_days (d : datetime) (k : Z) : Py datetime :=
  let o := toordinal d - k in
  if (0 <? o) && (o <=? MAXORDINAL)
  then ret (mk_datetime o (hour d) (minute d) (second d) (microsecond d))
  else raise OverflowError.

(** [d.strftime(fmt)] for the directives the programs use; every other
    character is copied.  [%Y] is printed on four digits, as it is for every
    year from 1000 on; below 1000 the C library decides whether the year is
    padded, and the statements about printed dates take four-digit years. *)
Fixpoint strftime (d : datetime) (fmt : string) : string :=
  match fmt with
  | EmptyString => EmptyString
  | String "%" (String c rest) =>
      let field :=
        match c with
        | "Y"%char => PyStr.zero_padded 4 (year d)
        | "m"%char => PyStr.zero_padded 2 (month d)
        | "d"%char => PyStr.zero_padded 2 (day d)
        | "H"%char => PyStr.zero_padded 2 (hour d)
        | "M"%char => PyStr.zero_padded 2 (minute d)
        | "S"%char => PyStr.zero_padded 2 (second d)
        | _ => String c EmptyString
        end in
      (field ++ strftime d rest)%string
  | String c rest => String c (strftime d rest)
  end.

(** [d.isoformat()] *)
Definition isoformat (d : datetime) : string :=
  (strftime d "%Y-%m-%dT%H:%M:%S"
   ++ (if (microsecond d =? 0)%Z then "" else "." ++ PyStr.zero_padded 6 (microsecond d)))%string.

End PyDatetime.

Notation "x >? y" := (PrimFloat.ltb y x) (at level 70, no associativity) : float_scope.

(** ** [main.py]

    Where the source compares a float with an int literal, the literal is
    written as the float of the same value: every literal of the source is
    one, and Python compares the two exactly. *)

Module Main.

(** [class LoanApplication(BaseModel)] *)
Record LoanApplication := mk_LoanApplication {
  applicant_income : float;
  loan_amount : float;
  loan_term_months : Z;
  credit_history_months : Z;
  employment_status : string;
  property_area : string;
  dependents : Z;
  education : string;
  existing_debt : float
}.

(** [class RiskAssessment(BaseModel)]; [key_factors] is a dict from a string
    to a list of strings, kept with its insertion order. *)
Record RiskAssessment := mk_RiskAssessment {
  application_id : string;
  risk_score : Z;
  risk_category : string;
  approval_recommendation : string;
  confidence : float;
  key_factors : list (string * list string);
  debt_to_income_ratio : float;
  loan_to_income_ratio : float;
  processed_at : string
}.

(** [d[k]] on a dict kept as an association list. *)
Fixpoint dict_get {V} (d : list (string * V)) (k : string) : option V :=
  match d with
  | [] => None
  | (k', v) :: rest => if String.eqb k' k then Some v else dict_get rest k
  end.

(** The constraints that the [Field] declarations of [LoanApplication] put on
    a request: [gt=0], [ge=12, le=480], [ge=0], [ge=0, le=10], [ge=0]. *)
Definition field_constraints (a : LoanApplication) : bool :=
  (applicant_income a >? 0)%float
  && (loan_amount a >? 0)%float
  && (12 <=? loan_term_months a) && (loan_term_months a <=? 480)
  && (0 <=? credit_history_months a)
  && (0 <=? dependents a) && (dependents a <=? 10)
  && (0 <=? existing_debt a)%float.

(** The enumerations that the field descriptions list. *)
Definition enum_constraints (a : LoanApplication) : bool :=
  existsb (String.eqb (employment_status a)) ["employed"; "self_employed"; "unemployed"]%string
  && existsb (String.eqb (property_area a)) ["urban"; "suburban"; "rural"]%string
  && existsb (String.eqb (education a)) ["graduate"; "not_graduate"]%string.

Definition valid_application (a : LoanApplication) : bool :=
  field_constraints a && enum_constraints a.

(** Lines 87 to 213 of [calculate_risk_score]: everything after the four
    ratios, which are its last three arguments ([monthly_payment] is read by
    [payment_to_income] only). *)
Definition score_and_explain (application : LoanApplication)
    (debt_to_income loan_to_income payment_to_income : float) : Py RiskAssessment :=
  (* Base score *)
  let score := 50 in
  (* Income factors *)
  let score :=
    if (applicant_income application >? 80000)%float then score + 15
    else if (applicant_income application >? 50000)%float then score + 10
    else if (applicant_income application <? 25000)%float then score - 15
    else score in
  (* Debt-to-income ratio *)
  let score :=
    if (debt_to_income <? 20)%float then score + 15
    else if (debt_to_income <? 35)%float then score + 5
    else if (debt_to_income >? 50)%float then score - 15
    else if (debt_to_income >? 40)%float then score - 10
    else score in
  (* Loan-to-income ratio *)
  let score :=
    if (loan_to_income <? 2)%float then score + 15
    else if (loan_to_income <? 3)%float then score + 8
    else if (loan_to_income >? 5)%float then score - 15
    else if (loan_to_income >? 4)%float then score - 10
    else score in
  (* Credit history *)
  let score :=
    if credit_history_months application >? 60 then score + 10
    else if credit_history_months application >? 36 then score + 5
    else if credit_history_months application <? 12 then score - 10
    else score in
  (* Employment status *)
  let score :=
    if (employment_status application =? "employed")%string then score + 10
    else if (employment_status application =? "unemployed")%string then score - 20
    else score in
  (* Education *)
  let score :=
    if (education application =? "graduate")%string then score + 5 else score in
  (* Property area *)
  let score :=
    if (property_area application =? "urban")%string then score + 5
    else if (property_area application =? "rural")%string then score - 3
    else score in
  (* Dependents *)
  let score :=
    if dependents application =? 0 then score + 5
    else if dependents application >? 3 then score - 5
    else score in
  (* Loan term *)
  let score :=
    if loan_term_months application <=? 180 then score + 5
    else if loan_term_months application >? 360 then score - 3
    else score in
  (* Cap score between 0-100 *)
  let score := Z.max 0 (Z.min 100 score) in
  (* Determine risk category *)
  let '(risk_category, approval) :=
    if score >=? 70 then ("LOW", "APPROVE")
    else if score >=? 50 then ("MEDIUM", "REVIEW")
    else ("HIGH", "DECLINE") in
  (* Identify key factors *)
  let positive_factors := [] in
  let negative_factors := [] in
  let positive_factors :=
    if (applicant_income application >? 60000)%float
    then positive_factors ++ ["Strong income level"] else positive_factors in
  let positive_factors :=
    if (debt_to_income <? 30)%float
    then positive_factors ++ ["Low debt-to-income ratio"] else positive_factors in
  let positive_factors :=
    if credit_history_months application >? 48
    then positive_factors ++ ["Established credit history"] else positive_factors in
  let positive_factors :=
    if (employment_status application =? "employed")%string
    then positive_factors ++ ["Stable employment"] else positive_factors in
  let positive_factors :=
    if (loan_to_income <? 3)%float
    then positive_factors ++ ["Reasonable loan amount"] else positive_factors in
  let negative_factors :=
    if (debt_to_income >? 40)%float
    then negative_factors ++ ["High existing debt burden"] else negative_factors in
  let negative_factors :=
    if (loan_to_income >? 4)%float
    then negative_factors ++ ["Large loan relative to income"] else negative_factors in
  let negative_factors :=
    if credit_history_months application <? 24
    then negative_factors ++ ["Limited credit history"] else negative_factors in
  let negative_factors :=
    if (employment_status application =? "unemployed")%string
    then negative_factors ++ ["No stable income source"] else negative_factors in
  let negative_factors :=
    if (payment_to_income >? 40)%float
    then negative_factors ++ ["High monthly payment burden"] else negative_factors in
  (* Generate application ID *)
  now <- datetime_now ;;
  let app_id := ("APP-" ++ PyDatetime.strftime now "%Y%m%d%H%M%S")%string in
  (* Calculate confidence *)
  ratio <- PyNum.int_truediv (Z.abs (score - 50)) 100 ;;
  let confidence := (0.75 + ratio * 0.2)%float in
  processed <- datetime_now ;;
  ret {| application_id := app_id;
         risk_score := score;
         risk_category := risk_category;
         approval_recommendation := approval;
         confidence := PyNum.round confidence 2;
         key_factors :=
           [ ("positive",
              match positive_factors with
              | [] => ["None identified"]
              | _ => positive_factors
              end);
             ("negative",
              match negative_factors with
              | [] => ["None identified"]
              | _ => negative_factors
              end) ];
         debt_to_income_ratio := PyNum.round debt_to_income 2;
         loan_to_income_ratio := PyNum.round loan_to_income 2;
         processed_at := PyDatetime.isoformat processed |}.

(** [calculate_risk_score] *)
Definition calculate_risk_score (application : LoanApplication) : Py RiskAssessment :=
  (* Calculate financial ratios *)
  q <- PyNum.float_truediv (existing_debt application) (applicant_income application) ;;
  let debt_to_income := (q * 100)%float in
  loan_to_income <- PyNum.float_truediv (loan_amount application) (applicant_income application) ;;
  monthly_payment <-
    PyNum.float_truediv_int (loan_amount application) (loan_term_months application) ;;
  q <- PyNum.float_truediv (monthly_payment * 12)%float (applicant_income application) ;;
  let payment_to_income := (q * 100)%float in
  score_and_explain application debt_to_income loan_to_income payment_to_income.

End Main.

(** ** The [random] module, over the raw draws of the world *)

Module PyRandom.

(** [random.randint(a, b)] *)
Definition randint (a b : Z) : Py Z :=
  if b <? a then raise ValueError
  else raw <- random_raw ;; ret (a + raw mod (b - a + 1)).

(** [random.choice(seq)] *)
Definition choice {A} (seq : list A) : Py A :=
  raw <- random_raw ;;
  match nth_error seq (Z.to_nat (raw mod Z.of_nat (List.length seq))) with
  | Some x => ret x
  | None => raise IndexError
  end.

(** [random.random()]: a multiple of 2^-53 in [0, 1). *)
Definition random : Py float :=
  raw <- random_raw ;;
  ret (PyNum.to_float (raw mod 2 ^ 53) / PyNum.to_float (2 ^ 53))%float.

(** [itertools.accumulate] on ints. *)
Fixpoint accumulate_from (acc : Z) (l : list Z) : list Z :=
  match l with
  | [] => []
  | x :: rest => (acc + x) :: accumulate_from (acc + x) rest
  end.

(** [bisect.bisect(a, x, lo, hi)] on an ascending list: the first index in
    [lo, hi) whose element is above [x], or [hi]. *)
Fixpoint bisect (a : list Z) (x : float) (lo hi : nat) : nat :=
  match a with
  | [] => hi
  | y :: rest =>
      match lo, hi with
      | _, O => O
      | S lo', S hi' => S (bisect rest x lo' hi')
      | O, S hi' => if (x <? PyNum.to_float y)%float then O else S (bisect rest x O hi')
      end
  end.

(** [random.choices(population, weights=weights)], one element drawn. *)
Definition choices {A} (population : list A) (weights : list Z) : Py (list A) :=
  let n := List.length population in
  let cum_weights := accumulate_from 0 weights in
  if negb (Nat.eqb (List.length cum_weights) n) then raise ValueError
  else
    let total := (PyNum.to_float (last cum_weights 0%Z) + 0.0)%float in
    if (total <=? 0.0)%float then raise ValueError
    else
      r <- random ;;
      match nth_error population (bisect cum_weights (r * total)%float 0 (n - 1)) with
      | Some x => ret [x]
      | None => raise IndexError
      end.

End PyRandom.

(** [list.sort(key=...)] with string keys: the stable sort, which compares
    keys with [<] only. *)
Module PyList.

Section SortByKey.
Context {A : Type} (key : A -> string).

Fixpoint insert_by_key (x : A) (l : list A) : list A :=
  match l with
  | [] => [x]
  | y :: rest =>
      if (key y <? key x)%string then y :: insert_by_key x rest else x :: y :: rest
  end.

Fixpoint sort_by_key (l : list A) : list A :=
  match l with
  | [] => []
  | x :: rest => insert_by_key x (sort_by_key rest)
  end.

End SortByKey.

(** [l[0]] *)
Definition item0 {A} (l : list A) : Py A :=
  match l with
  | x :: _ => ret x
  | [] => raise IndexError
  end.

End PyList.

(** ** [generate_data.py] *)

Module GenerateData.

(** The dict that [generate_application] returns, one field per key. *)
Record Row := mk_Row {
  application_date : string;
  applicant_income : Z;
  loan_amount : Z;
  loan_term_months : Z;
  credit_history_months : Z;
  employment_status : string;
  property_area : string;
  dependents : Z;
  education : string;
  existing_debt : Z;
  debt_to_income_ratio : float;
  loan_to_income_ratio : float;
  risk_score : Z;
  risk_category : string;
  decision : string
}.

(** Lines 20 to 123 of [generate_application]: everything after the random
    applicant profile, which is its arguments. *)
Definition score_profile (income loan_amount loan_term credit_history : Z)
    (employment property_area : string) (dependents : Z) (education : string)
    (existing_debt : Z) : Py Row :=
  (* Calculate ratios *)
  q <- PyNum.int_truediv existing_debt income ;;
  let debt_to_income := (q * 100)%float in
  loan_to_income <- PyNum.int_truediv loan_amount income ;;
  monthly_payment <- PyNum.int_truediv loan_amount loan_term ;;
  q <- PyNum.float_truediv_int (monthly_payment * 12)%float income ;;
  let payment_to_income := (q * 100)%float in
  (* Calculate risk score (same logic as API) *)
  let score := 50 in
  (* Income factors *)
  let score :=
    if income >? 80000 then score + 15
    else if income >? 50000 then score + 10
    else if income <? 25000 then score - 15
    else score in
  (* Debt-to-income *)
  let score :=
    if (debt_to_income <? 20)%float then score + 15
    else if (debt_to_income <? 35)%float then score + 5
    else if (debt_to_income >? 50)%float then score - 15
    else if (debt_to_income >? 40)%float then score - 10
    else score in
  (* Loan-to-income *)
  let score :=
    if (loan_to_income <? 2)%float then score + 15
    else if (loan_to_income <? 3)%float then score + 8
    else if (loan_to_income >? 5)%float then score - 15
    else if (loan_to_income >? 4)%float then score - 10
    else score in
  (* Credit history *)
  let score :=
    if credit_history >? 60 then score + 10
    else if credit_history >? 36 then score + 5
    else if credit_history <? 12 then score - 10
    else score in
  (* Employment *)
  let score :=
    if (employment =? "employed")%string then score + 10
    else if (employment =? "unemployed")%string then score - 20
    else score in
  (* Education *)
  let score := if (education =? "graduate")%string then score + 5 else score in
  (* Property area *)
  let score :=
    if (property_area =? "urban")%string then score + 5
    else if (property_area =? "rural")%string then score - 3
    else score in
  (* Dependents *)
  let score :=
    if dependents =? 0 then score + 5
    else if dependents >? 3 then score - 5
    else score in
  (* Loan term *)
  let score :=
    if loan_term <=? 180 then score + 5
    else if loan_term >? 360 then score - 3
    else score in
  (* Cap score *)
  let score := Z.max 0 (Z.min 100 score) in
  (* Determine category and decision *)
  let '(category, decision) :=
    if score >=? 70 then ("LOW", "APPROVED")
    else if score >=? 50 then ("MEDIUM", "REVIEW")
    else ("HIGH", "DECLINED") in
  now <- datetime_now ;;
  days <- PyRandom.randint 0 365 ;;
  date <- PyDatetime.sub_days now days ;;
  ret {| application_date := PyDatetime.strftime date "%Y-%m-%d";
         applicant_income := income;
         loan_amount := loan_amount;
         loan_term_months := loan_term;
         credit_history_months := credit_history;
         employment_status := employment;
         property_area := property_area;
         dependents := dependents;
         education := education;
         existing_debt := existing_debt;
         debt_to_income_ratio := PyNum.round debt_to_income 2;
         loan_to_income_ratio := PyNum.round loan_to_income 2;
         risk_score := score;
         risk_category := category;
         decision := decision |}.

(** [generate_application] *)
Definition generate_application : Py Row :=
  (* Random applicant profile *)
  income <- PyRandom.randint 25000 150000 ;;
  loan_amount <- PyRandom.randint 50000 500000 ;;
  loan_term <- PyRandom.choice [60; 120; 180; 240; 360] ;;
  credit_history <- PyRandom.randint 0 120 ;;
  employment <-
    PyRandom.choice ["employed"; "employed"; "employed"; "self_employed"; "unemployed"] ;;
  property_area <- PyRandom.choice ["urban"; "urban"; "suburban"; "rural"] ;;
  drawn <- PyRandom.choices [0; 1; 2; 3; 4] [30; 25; 25; 15; 5] ;;
  dependents <- PyList.item0 drawn ;;
  education <- PyRandom.choice ["graduate"; "graduate"; "not_graduate"] ;;
  income_f <- PyNum.float_of_int income ;;
  half <- PyNum.int_of_float (income_f * 0.5)%float ;;
  existing_debt <- PyRandom.randint 0 half ;;
  score_profile income loan_amount loan_term credit_history employment property_area
                dependents education existing_debt.

(** The loop of [generate_dataset]: [count] more rows appended. *)
Fixpoint append_applications (count : nat) (applications : list Row) : Py (list Row) :=
  match count with
  | O => ret applications
  | S count' =>
      row <- generate_application ;;
      append_applications count' (applications ++ [row])
  end.

(** [generate_dataset]; [range] of a negative count is empty. *)
Definition generate_dataset (num_applications : Z) : Py (list Row) :=
  applications <- append_applications (Z.to_nat num_applications) [] ;;
  (* Sort by date *)
  ret (PyList.sort_by_key application_date applications).

End GenerateData.

(** ** The algorithm as the specification words it (section 4.1)

    These definitions follow the specification, step by step; the theorems
    below compare them with the two programs. *)

Module Spec.

Import Main.

(** Step 1: the derived ratios. *)
Definition debt_to_income (a : LoanApplication) : float :=
  (existing_debt a / applicant_income a * 100)%float.
Definition loan_to_income (a : LoanApplication) : float :=
  (loan_amount a / applicant_income a)%float.
Definition monthly_payment (a : LoanApplication) : float :=
  (loan_amount a / PyNum.to_float (loan_term_months a))%float.
Definition payment_to_income (a : LoanApplication) : float :=
  (monthly_payment a * 12 / applicant_income a * 100)%float.

(** Step 2: one adjustment per factor, the first matching band of each. *)
Definition income_points (income : float) : Z :=
  if (income >? 80000)%float then 15
  else if (income >? 50000)%float then 10
  else if (income <? 25000)%float then -15
  else 0.

Definition debt_to_income_points (dti : float) : Z :=
  if (dti <? 20)%float then 15
  else if (dti <? 35)%float then 5
  else if (dti >? 50)%float then -15
  else if (dti >? 40)%float then -10
  else 0.

Definition loan_to_income_points (lti : float) : Z :=
  if (lti <? 2)%float then 15
  else if (lti <? 3)%float then 8
  else if (lti >? 5)%float then -15
  else if (lti >? 4)%float then -10
  else 0.

Definition credit_history_points (months : Z) : Z :=
  if 60 <? months then 10
  else if 36 <? months then 5
  else if months <? 12 then -10
  else 0.

Definition employment_points (status : string) : Z :=
  if (status =? "employed")%string then 10
  else if (status =? "unemployed")%string then -20
  else 0.

Definition education_points (level : string) : Z :=
  if (level =? "graduate")%string then 5 else 0.

Definition property_area_points (area : string) : Z :=
  if (area =? "urban")%string then 5
  else if (area =? "rural")%string then -3
  else 0.

Definition dependents_points (n : Z) : Z :=
  if n =? 0 then 5 else if 3 <? n then -5 else 0.

Definition loan_term_points (months : Z) : Z :=
  if months <=? 180 then 5 else if 360 <? months then -3 else 0.

(** Base 50 plus the nine adjustments. *)
Definition raw_score (a : LoanApplication) (dti lti : float) : Z :=
  50 + income_points (applicant_income a)
     + debt_to_income_points dti
     + loan_to_income_points lti
     + credit_history_points (credit_history_months a)
     + employment_points (employment_status a)
     + education_points (education a)
     + property_area_points (property_area a)
     + dependents_points (dependents a)
     + loan_term_points (loan_term_months a).

(** Step 3. *)
Definition clamp (score : Z) : Z := Z.max 0 (Z.min 100 score).

(** Step 4. *)
Definition category (score : Z) : string :=
  if 70 <=? score then "LOW" else if 50 <=? score then "MEDIUM" else "HIGH".

Definition recommendation (score : Z) : string :=
  if 70 <=? score then "APPROVE" else if 50 <=? score then "REVIEW" else "DECLINE".

(** Step 5. *)
Definition confidence (score : Z) : float :=
  PyNum.round (0.75 + PyNum.to_float (Z.abs (score - 50)) / 100 * 0.2)%float 2.

(** Step 6: the rules, in their fixed order, each with its text. *)
Definition positive_rules (a : LoanApplication) (dti lti : float) : list (bool * string) :=
  [ ((applicant_income a >? 60000)%float, "Strong income level");
    ((dti <? 30)%float, "Low debt-to-income ratio");
    (48 <? credit_history_months a, "Established credit history");
    ((employment_status a =? "employed")%string, "Stable employment");
    ((lti <? 3)%float, "Reasonable loan amount") ].

Definition negative_rules_but_last (a : LoanApplication) (dti lti : float) : list (bool * string) :=
  [ ((dti >? 40)%float, "High existing debt burden");
    ((lti >? 4)%float, "Large loan relative to income");
    (credit_history_months a <? 24, "Limited credit history");
    ((employment_status a =? "unemployed")%string, "No stable income source") ].

Definition payment_rule (pti : float) : list (bool * string) :=
  [ ((pti >? 40)%float, "High monthly payment burden") ].

Definition negative_rules (a : LoanApplication) (dti lti pti : float) : list (bool * string) :=
  negative_rules_but_last a dti lti ++ payment_rule pti.

Definition fired (rules : list (bool * string)) : list string :=
  map snd (filter fst rules).

Definition placeholder : string := "None identified".

Definition or_placeholder (entries : list string) : list string :=
  match entries with [] => [placeholder] | _ => entries end.

(** The assessment of a record whose ratios are [dti], [lti] and [pti], when
    the clock reads [now] and then [later]. *)
Definition assessment (a : LoanApplication) (dti lti pti : float) (now later : datetime)
  : RiskAssessment :=
  let score := clamp (raw_score a dti lti) in
  {| application_id := "APP-" ++ PyDatetime.strftime now "%Y%m%d%H%M%S";
     risk_score := score;
     risk_category := category score;
     approval_recommendation := recommendation score;
     Main.confidence := confidence score;
     key_factors :=
       [ ("positive", or_placeholder (fired (positive_rules a dti lti)));
         ("negative", or_placeholder (fired (negative_rules a dti lti pti))) ];
     debt_to_income_ratio := PyNum.round dti 2;
     loan_to_income_ratio := PyNum.round lti 2;
     processed_at := PyDatetime.isoformat later |}.

End Spec.

(** ** The dataset against the service *)

Module Dataset.

(** The request that carries a sampled profile: a float field holds the float
    of the sampled int. *)
Definition request (income loan_amount loan_term credit_history : Z)
    (employment property_area : string) (dependents : Z) (education : string)
    (existing_debt : Z) : Main.LoanApplication :=
  {| Main.applicant_income := PyNum.to_float income;
     Main.loan_amount := PyNum.to_float loan_amount;
     Main.loan_term_months := loan_term;
     Main.credit_history_months := credit_history;
     Main.employment_status := employment;
     Main.property_area := property_area;
     Main.dependents := dependents;
     Main.education := education;
     Main.existing_debt := PyNum.to_float existing_debt |}.

Definition request_of_row (row : GenerateData.Row) : Main.LoanApplication :=
  request (GenerateData.applicant_income row) (GenerateData.loan_amount row)
          (GenerateData.loan_term_months row) (GenerateData.credit_history_months row)
          (GenerateData.employment_status row) (GenerateData.property_area row)
          (GenerateData.dependents row) (GenerateData.education row)
          (GenerateData.existing_debt row).

(** The generator's word for each recommendation of the service. *)
Definition label (recommendation : string) : string :=
  if (recommendation =? "APPROVE")%string then "APPROVED"
  else if (recommendation =? "DECLINE")%string then "DECLINED"
  else recommendation.

(** The row of a profile whose application date is [date]. *)
Definition row (income loan_amount loan_term credit_history : Z)
    (employment property_area : string) (dependents : Z) (education : string)
    (existing_debt : Z) (date : datetime) : GenerateData.Row :=
  let a := request income loan_amount loan_term credit_history employment property_area
                   dependents education existing_debt in
  let score := Spec.clamp (Spec.raw_score a (Spec.debt_to_income a) (Spec.loan_to_income a)) in
  {| GenerateData.application_date := PyDatetime.strftime date "%Y-%m-%d";
     GenerateData.applicant_income := income;
     GenerateData.loan_amount := loan_amount;
     GenerateData.loan_term_months := loan_term;
     GenerateData.credit_history_months := credit_history;
     GenerateData.employment_status := employment;
     GenerateData.property_area := property_area;
     GenerateData.dependents := dependents;
     GenerateData.education := education;
     GenerateData.existing_debt := existing_debt;
     GenerateData.debt_to_income_ratio := PyNum.round (Spec.debt_to_income a) 2;
     GenerateData.loan_to_income_ratio := PyNum.round (Spec.loan_to_income a) 2;
     GenerateData.risk_score := score;
     GenerateData.risk_category := Spec.category score;
     GenerateData.decision := label (Spec.recommendation score) |}.

(** A clock that reads a date from 0002-01-01 on at every reading, so that a
    year can be taken off it. *)
Definition clock_allows_a_year_back (w : World) : Prop :=
  forall i, 365 < toordinal (clock w i) <= PyDatetime.MAXORDINAL.

(** The profiles that [generate_application] samples. *)
Definition sampled (income loan_amount loan_term credit_history : Z)
    (employment property_area : string) (dependents : Z) (education : string)
    (existing_debt : Z) : Prop :=
  25000 <= income <= 150000
  /\ 50000 <= loan_amount <= 500000
  /\ In loan_term [60; 120; 180; 240; 360]
  /\ 0 <= credit_history <= 120
  /\ In employment ["employed"; "employed"; "employed"; "self_employed"; "unemployed"]
  /\ In property_area ["urban"; "urban"; "suburban"; "rural"]
  /\ In dependents [0; 1; 2; 3; 4]
  /\ In education ["graduate"; "graduate"; "not_graduate"]
  /\ 0 <= existing_debt <= income / 2.

(** The profiles whose amounts are integers that a float holds exactly: the
    requests that the generator's scoring and the service share. *)
Definition integral (income loan_amount existing_debt : Z) : Prop :=
  0 <= income < 9007199254740992
  /\ 0 <= loan_amount < 9007199254740992
  /\ 0 <= existing_debt < 9007199254740992.

End Dataset.

(** ** Concrete inputs *)

Module Samples.

(** A clock stuck on 2026-11-04 09:05:03.000004 and a fixed entropy stream. *)
Definition world : World :=
  mk_World (fun _ => mk_datetime 739924 9 5 3 4) 0
           (fun n => (Z.of_nat n * 7919 + 13) * 104729 mod 1000003) 0.

(** A later clock and another stream. *)
Definition other_world : World :=
  mk_World (fun n => mk_datetime (740000 + Z.of_nat n) 23 59 59 0) 7
           (fun n => Z.of_nat n * 31 + 5) 3.

(** The three requests of [test_main.py] and of the schema example. *)
Definition high_risk : Main.LoanApplication :=
  Main.mk_LoanApplication 20000 200000 360 6 "unemployed" "rural" 4 "not_graduate" 15000.

Definition low_risk : Main.LoanApplication :=
  Main.mk_LoanApplication 100000 150000 180 96 "employed" "urban" 1 "graduate" 5000.

Definition schema_example : Main.LoanApplication :=
  Main.mk_LoanApplication 50000 150000 360 84 "employed" "urban" 2 "graduate" 15000.

(** A request on which no explanatory rule fires. *)
Definition plain : Main.LoanApplication :=
  Main.mk_LoanApplication 40000 140000 240 30 "self_employed" "suburban" 2 "graduate" 14000.

End Samples.

(** ** Vocabulary of the proofs *)

(** The world after one reading of the clock. *)
Definition tick_clock (w : World) : World :=
  mk_World (clock w) (S (clock_reads w)) (entropy w) (entropy_draws w).

(** The world after one raw draw. *)
Definition tick_entropy (w : World) : World :=
  mk_World (clock w) (clock_reads w) (entropy w) (S (entropy_draws w)).

(** Checking a decidable property on every integer of an interval. *)
Fixpoint all_from (P : Z -> bool) (lo : Z) (count : nat) : bool :=
  match count with
  | O => true
  | S k => P lo && all_from P (lo + 1) k
  end.

(** An int that converts to a finite, nonzero float. *)
Definition usable_divisor (n : Z) : bool :=
  negb (PrimFloat.is_infinity (PyNum.to_float n)) && negb (PyNum.to_float n =? 0)%float.

(** The exponent and the mantissa of the float of a positive integer below
    2^53: the integer shifted to 53 binary digits. *)
Definition exponent53 (p : positive) : Z := Z.pos (digits2_pos p) - 53.

Definition mantissa53 (p : positive) : positive :=
  match exponent53 p with
  | Zneg k => Pos.iter xO p k
  | _ => p
  end.

(** The integers that a float holds exactly. *)
Definition below_2_53 (n : Z) : Prop := n < 9007199254740992.

Definition small_natural (n : Z) : Prop := 0 <= n < 9007199254740992.

(** The confidence depends on the score through its distance to 50 only. *)
Definition confidence_at (distance : Z) : float :=
  PyNum.round (0.75 + PyNum.to_float distance / 100 * 0.2)%float 2.

(** The tables of the confidence, one entry per distance from 0 to 50. *)
Definition confidence_in_ranges (distance : Z) : bool :=
  let c := confidence_at distance in
  ((0.75 <=? c) && (c <=? 0.85) && (c <=? 0.95))%float.

Definition confidence_ordered (c : float) (from distance : Z) : bool :=
  implb (from <=? distance) (c <=? confidence_at distance)%float.

Definition confidence_ordered_from (from : Z) : bool :=
  let c := confidence_at from in all_from (confidence_ordered c from) 0 51.

(** The next raw draw of a world. *)
Definition raw_draw (w : World) : Z := Z.abs (entropy w (entropy_draws w)).

(** The world after the nine draws of a profile, and after the whole of
    [generate_application]. *)
Definition after_profile (w : World) : World :=
  mk_World (clock w) (clock_reads w) (entropy w) (9 + entropy_draws w).

Definition after_application (w : World) : World :=
  mk_World (clock w) (S (clock_reads w)) (entropy w) (10 + entropy_draws w).

(** A date as one number, year then month then day. *)
Definition date_key (n : Z) : Z :=
  let '(y, m, d) := PyDatetime.ord2ymd n in y * 10000 + m * 100 + d.

(** One pass over consecutive days: every date is well formed, within the
    first 400 years, and later than the day before. *)
Fixpoint days_ascend (previous : Z) (day : Z) (count : nat) : bool :=
  match count with
  | O => true
  | S k =>
      let '(y, m, d) := PyDatetime.ord2ymd day in
      let key := y * 10000 + m * 100 + d in
      (1 <=? y) && (y <=? 400) && (1 <=? m) && (m <=? 12) && (1 <=? d) && (d <=? 31)
      && (previous <? key) && days_ascend key (day + 1) k
  end.

(** A well-formed date of the first 400 years. *)
Definition cycle_day_ok (r : Z) : Prop :=
  let '(y, m, d) := PyDatetime.ord2ymd r in
  1 <= y <= 400 /\ 1 <= m <= 12 /\ 1 <= d <= 31.

(** The dates from 1000-01-01 to 9999-12-31. *)
Definition four_digit_date (d : datetime) : Prop :=
  364878 <= toordinal d <= PyDatetime.MAXORDINAL.

(** A clock that reads a date from 1001-01-01 on at every reading: the dates
    of the year before a reading are four-digit dates too. *)
Definition clock_of_four_digit_years (w : World) : Prop :=
  forall i, 365243 <= toordinal (clock w i) <= PyDatetime.MAXORDINAL.

(** The row is dated at most 365 days before some reading of the clock. *)
Definition dated_by_clock (w : World) (row : GenerateData.Row) (date : datetime) : Prop :=
  GenerateData.application_date row = PyDatetime.strftime date "%Y-%m-%d"
  /\ exists i, toordinal (clock w i) - 365 <= toordinal date <= toordinal (clock w i).

(** Keys in order, as [list.sort] leaves them. *)
Definition key_le {A : Type} (key : A -> string) (x y : A) : Prop :=
  (key x <=? key y)%string = true.

(** ** The handler of [POST /api/v1/score] *)

Module Service.

(** [HTTPException(status_code=..., detail=...)] *)
Record HTTPException := mk_HTTPException {
  status_code : Z;
  detail : string
}.

Section Handler.

(** [str(e)]: the message that Python gives to each exception. *)
Variable str : exn -> string.

(** [score_application]: the assessment, or the [HTTPException] raised in
    place of whatever the scoring raised. *)
Definition score_application (application : Main.LoanApplication)
  : World -> (HTTPException + Main.RiskAssessment) * World :=
  fun w =>
    match Main.calculate_risk_score application w with
    | (Returns assessment, w') => (inr assessment, w')
    | (Raises e, w') => (inl (mk_HTTPException 500 ("Scoring failed: " ++ str e)), w')
    end.

End Handler.

End Service.

(** ** Requests that differ in one field *)

Module Edit.

Import Main.

Definition with_employment_status (a : LoanApplication) (status : string) : LoanApplication :=
  mk_LoanApplication (applicant_income a) (loan_amount a) (loan_term_months a)
    (credit_history_months a) status (property_area a) (dependents a) (education a)
    (existing_debt a).

Definition with_property_area (a : LoanApplication) (area : string) : LoanApplication :=
  mk_LoanApplication (applicant_income a) (loan_amount a) (loan_term_months a)
    (credit_history_months a) (employment_status a) area (dependents a) (education a)
    (existing_debt a).

Definition with_education (a : LoanApplication) (level : string) : LoanApplication :=
  mk_LoanApplication (applicant_income a) (loan_amount a) (loan_term_months a)
    (credit_history_months a) (employment_status a) (property_area a) (dependents a) level
    (existing_debt a).

Definition with_credit_history_months (a : LoanApplication) (months : Z) : LoanApplication :=
  mk_LoanApplication (applicant_income a) (loan_amount a) (loan_term_months a)
    months (employment_status a) (property_area a) (dependents a) (education a)
    (existing_debt a).

Definition with_dependents (a : LoanApplication) (n : Z) : LoanApplication :=
  mk_LoanApplication (applicant_income a) (loan_amount a) (loan_term_months a)
    (credit_history_months a) (employment_status a) (property_area a) n (education a)
    (existing_debt a).

Definition with_loan_term_months (a : LoanApplication) (months : Z) : LoanApplication :=
  mk_LoanApplication (applicant_income a) (loan_amount a) months
    (credit_history_months a) (employment_status a) (property_area a) (dependents a)
    (education a) (existing_debt a).

End Edit.

(** More concrete inputs. *)
Module Cases.

(** A request that no validation has seen: no income at all. *)
Definition no_income : Main.LoanApplication :=
  Main.mk_LoanApplication 0 150000 360 84 "employed" "urban" 2 "graduate" 15000.

(** Strings that the descriptions of the fields do not list. *)
Definition unlisted : Main.LoanApplication :=
  Main.mk_LoanApplication 50000 150000 360 84 "Employed" "city" 2 "phd" 15000.

End Cases.

(** A reading of the clock between 1000-01-01 and 9999-12-31, at a time of
    the day. *)
Definition wall_clock_reading (d : datetime) : Prop :=
  four_digit_date d
  /\ 0 <= hour d < 24 /\ 0 <= minute d < 60 /\ 0 <= second d < 60.

(** The same date and time, microseconds apart. *)
Definition same_second (d1 d2 : datetime) : Prop :=
  toordinal d1 = toordinal d2
  /\ hour d1 = hour d2 /\ minute d1 = minute d2 /\ second d1 = second d2.

(** A row whose profile lies in the ranges that [generate_application]
    samples. *)
Definition sampled_row (row : GenerateData.Row) : Prop :=
  Dataset.sampled (GenerateData.applicant_income row) (GenerateData.loan_amount row)
    (GenerateData.loan_term_months row) (GenerateData.credit_history_months row)
    (GenerateData.employment_status row) (GenerateData.property_area row)
    (GenerateData.dependents row) (GenerateData.education row)
    (GenerateData.existing_debt row).

(** A row whose category and decision are the ones of its score. *)
Definition labelled_by_score (row : GenerateData.Row) : Prop :=
  0 <= GenerateData.risk_score row <= 100
  /\ ((70 <= GenerateData.risk_score row
       /\ GenerateData.risk_category row = "LOW"
       /\ GenerateData.decision row = "APPROVED")
      \/ (50 <= GenerateData.risk_score row < 70
          /\ GenerateData.risk_category row = "MEDIUM"
          /\ GenerateData.decision row = "REVIEW")
      \/ (GenerateData.risk_score row < 50
          /\ GenerateData.risk_category row = "HIGH"
          /\ GenerateData.decision row = "DECLINED")).

(** The world after [count] rows: one reading of the clock and ten draws for
    each. *)
Definition after_applications (count : nat) (w : World) : World :=
  mk_World (clock w) (count + clock_reads w) (entropy w) (10 * count + entropy_draws w).

(** * Properties *)

(** ** Auxiliary facts *)

Lemma bind_returns {A B} (c : Py A) (k : A -> Py B) (w w' : World) (a : A) :
  c w = (Returns a, w') -> bind c k w = k a w'.
Proof. intros H. unfold bind. rewrite H. reflexivity. Qed.

Lemma all_from_spec (P : Z -> bool) (count : nat) :
  forall lo, all_from P lo count = true ->
  forall k, lo <= k < lo + Z.of_nat count -> P k = true.
Proof.
  induction count as [| n IH]; intros lo H k Hk.
  - simpl in Hk. lia.
  - simpl in H. apply andb_true_iff in H. destruct H as [Hlo Hrest].
    destruct (Z.eq_dec k lo) as [-> | Hne]; [exact Hlo |].
    apply (IH (lo + 1) Hrest). lia.
Qed.

Lemma all_between (P : Z -> bool) (lo hi : Z) :
  all_from P lo (Z.to_nat (hi - lo + 1)) = true ->
  forall k, lo <= k <= hi -> P k = true.
Proof. intros H k Hk. apply (all_from_spec P _ lo H). lia. Qed.

(** *** Floats *)

Lemma float_positive_nonzero (x : float) :
  (x >? 0)%float = true -> (x =? 0)%float = false.
Proof.
  rewrite ltb_spec, eqb_spec.
  change (Prim2SF 0) with (S754_zero false).
  destruct (Prim2SF x) as [s | s | | s m e]; try (destruct s); cbv; congruence.
Qed.

Lemma float_truediv_run (x y : float) (w : World) :
  (y =? 0)%float = false -> PyNum.float_truediv x y w = (Returns (x / y)%float, w).
Proof. intros H. unfold PyNum.float_truediv. rewrite H. reflexivity. Qed.

Lemma int_truediv_small (a b : Z) (w : World) :
  b <> 0 -> PyNum.fits_mantissa a = true -> PyNum.fits_mantissa b = true ->
  PyNum.int_truediv a b w = (Returns (PyNum.to_float a / PyNum.to_float b)%float, w).
Proof.
  intros Hb Ha Hb'. unfold PyNum.int_truediv.
  destruct (Z.eqb_spec b 0) as [E | _]; [contradiction |].
  rewrite Ha, Hb'. reflexivity.
Qed.

Lemma float_truediv_int_run (x : float) (n : Z) (w : World) :
  usable_divisor n = true ->
  PyNum.float_truediv_int x n w = (Returns (x / PyNum.to_float n)%float, w).
Proof.
  unfold usable_divisor. intros H. apply andb_true_iff in H. destruct H as [Hinf Hzero].
  apply negb_true_iff in Hinf. apply negb_true_iff in Hzero.
  unfold PyNum.float_truediv_int, PyNum.float_of_int.
  rewrite Hinf. unfold bind, ret. apply float_truediv_run. exact Hzero.
Qed.

(** *** Floats of integers below 2^53

    Such an integer is a float: its conversion is exact, with a mantissa of
    53 digits, and conversions compare as the integers do. *)

Lemma digits2_bounds (p : positive) :
  2 ^ (Z.pos (digits2_pos p) - 1) <= Z.pos p < 2 ^ Z.pos (digits2_pos p).
Proof.
  induction p as [p IH | p IH |]; cbn [digits2_pos].
  - rewrite Pos2Z.inj_succ. change (Z.pos p~1) with (2 * Z.pos p + 1).
    replace (Z.succ (Z.pos (digits2_pos p)) - 1) with (Z.succ (Z.pos (digits2_pos p) - 1)) by lia.
    rewrite !Z.pow_succ_r by lia. lia.
  - rewrite Pos2Z.inj_succ. change (Z.pos p~0) with (2 * Z.pos p).
    replace (Z.succ (Z.pos (digits2_pos p)) - 1) with (Z.succ (Z.pos (digits2_pos p) - 1)) by lia.
    rewrite !Z.pow_succ_r by lia. lia.
  - cbv. split; [discriminate | reflexivity].
Qed.

Lemma digits2_iter_xO (p k : positive) :
  digits2_pos (Pos.iter xO p k) = (digits2_pos p + k)%positive.
Proof.
  induction k as [| k IH] using Pos.peano_ind.
  - simpl. lia.
  - rewrite Pos.iter_succ. cbn [digits2_pos]. rewrite IH. lia.
Qed.

Lemma iter_xO_value (p k : positive) : Z.pos (Pos.iter xO p k) = Z.pos p * 2 ^ Z.pos k.
Proof.
  induction k as [| k IH] using Pos.peano_ind.
  - simpl. lia.
  - rewrite Pos.iter_succ.
    change (Z.pos (Pos.iter xO p k)~0) with (2 * Z.pos (Pos.iter xO p k)).
    rewrite IH, Pos2Z.inj_succ, Z.pow_succ_r by lia. lia.
Qed.

Lemma below_2_53_digits (p : positive) : below_2_53 (Z.pos p) -> Z.pos (digits2_pos p) <= 53.
Proof.
  unfold below_2_53. intros H. pose proof (digits2_bounds p) as [Hlow _].
  destruct (Z_le_gt_dec (Z.pos (digits2_pos p)) 53) as [L | G]; [exact L | exfalso].
  assert (2 ^ 53 <= 2 ^ (Z.pos (digits2_pos p) - 1)) by (apply Z.pow_le_mono_r; lia).
  change (2 ^ 53) with 9007199254740992 in *. lia.
Qed.

Lemma mantissa53_spec (p : positive) :
  below_2_53 (Z.pos p) ->
  Z.pos (digits2_pos (mantissa53 p)) = 53
  /\ Z.pos (mantissa53 p) = Z.pos p * 2 ^ (- exponent53 p)
  /\ -52 <= exponent53 p <= 0.
Proof.
  intros H. pose proof (below_2_53_digits p H) as Hd.
  unfold mantissa53, exponent53.
  destruct (Z.pos (digits2_pos p) - 53) as [| k | k] eqn:E.
  - simpl. lia.
  - lia.
  - rewrite digits2_iter_xO, iter_xO_value. cbn [Z.opp]. lia.
Qed.

Lemma binary_round_aux_canonical (s : bool) (m : positive) (e : Z) :
  Z.pos (digits2_pos m) = 53 -> -1074 <= e <= 971 ->
  binary_round_aux prec emax s (Z.pos m) e loc_Exact = S754_finite s m e.
Proof.
  intros Hd He.
  assert (Hshift : fexp prec emax (Zdigits2 (Z.pos m) + e) - e = 0).
  { unfold fexp, emin, prec, emax. cbn [Zdigits2]. rewrite Hd. lia. }
  unfold binary_round_aux, shr_fexp. rewrite Hshift.
  cbn [shr shr_record_of_loc shr_m loc_of_shr_record round_nearest_even].
  rewrite Hshift. cbn [shr shr_record_of_loc shr_m].
  replace (e <=? emax - prec) with true; [reflexivity |].
  symmetry. apply Z.leb_le. unfold emax, prec. lia.
Qed.

Lemma binary_normalize_small (p : positive) :
  below_2_53 (Z.pos p) ->
  binary_normalize prec emax (Z.pos p) 0 false
  = S754_finite false (mantissa53 p) (exponent53 p).
Proof.
  intros H. destruct (mantissa53_spec p H) as (Hd & _ & He).
  pose proof (below_2_53_digits p H) as Hdp.
  cbn [binary_normalize]. unfold binary_round.
  assert (Hfexp : fexp prec emax (Z.pos (digits2_pos p) + 0) = exponent53 p).
  { unfold fexp, emin, prec, emax, exponent53. lia. }
  rewrite Hfexp. unfold shl_align. rewrite Z.sub_0_r.
  unfold mantissa53 in Hd |- *.
  destruct (exponent53 p) as [| k | k] eqn:E.
  - apply binary_round_aux_canonical; [exact Hd | lia].
  - lia.
  - apply binary_round_aux_canonical; [exact Hd | lia].
Qed.

Lemma Prim2SF_to_float (p : positive) :
  below_2_53 (Z.pos p) ->
  Prim2SF (PyNum.to_float (Z.pos p)) = S754_finite false (mantissa53 p) (exponent53 p).
Proof.
  intros H. unfold PyNum.to_float. rewrite (binary_normalize_small p H).
  apply Prim2SF_SF2Prim.
  destruct (mantissa53_spec p H) as (Hd & _ & He).
  cbn [valid_binary]. unfold bounded, canonical_mantissa, fexp, emin, prec, emax.
  rewrite Hd. apply andb_true_iff. split; [apply Z.eqb_eq | apply Z.leb_le]; lia.
Qed.

Lemma Prim2SF_to_float_0 : Prim2SF (PyNum.to_float 0) = S754_zero false.
Proof. reflexivity. Qed.

Lemma compare_canonical (p q : positive) :
  below_2_53 (Z.pos p) -> below_2_53 (Z.pos q) ->
  SFcompare (S754_finite false (mantissa53 p) (exponent53 p))
            (S754_finite false (mantissa53 q) (exponent53 q))
  = Some (Z.pos p ?= Z.pos q).
Proof.
  intros Hp Hq.
  destruct (mantissa53_spec p Hp) as (_ & Vp & Ep).
  destruct (mantissa53_spec q Hq) as (_ & Vq & Eq').
  pose proof (digits2_bounds p) as [Lp Up]. pose proof (digits2_bounds q) as [Lq Uq].
  cbn [SFcompare]. f_equal.
  destruct (Z.compare_spec (exponent53 p) (exponent53 q)) as [E | L | G].
  - change (Pos.compare_cont Eq (mantissa53 p) (mantissa53 q))
      with (Z.pos (mantissa53 p) ?= Z.pos (mantissa53 q)).
    rewrite Vp, Vq, E.
    assert (0 < 2 ^ (- exponent53 q)) by (apply Z.pow_pos_nonneg; lia).
    destruct (Z.compare_spec (Z.pos p) (Z.pos q)) as [E' | L' | G'].
    + rewrite E'. apply Z.compare_refl.
    + apply Z.compare_lt_iff. nia.
    + apply Z.compare_gt_iff. nia.
  - symmetry. apply Z.compare_lt_iff. unfold exponent53 in L.
    assert (2 ^ Z.pos (digits2_pos p) <= 2 ^ (Z.pos (digits2_pos q) - 1))
      by (apply Z.pow_le_mono_r; lia).
    lia.
  - symmetry. apply Z.compare_gt_iff. unfold exponent53 in G.
    assert (2 ^ Z.pos (digits2_pos q) <= 2 ^ (Z.pos (digits2_pos p) - 1))
      by (apply Z.pow_le_mono_r; lia).
    lia.
Qed.

Lemma to_float_compare (a b : Z) :
  small_natural a -> small_natural b ->
  SFcompare (Prim2SF (PyNum.to_float a)) (Prim2SF (PyNum.to_float b)) = Some (a ?= b).
Proof.
  unfold small_natural. intros Ha Hb.
  destruct a as [| p | p]; [| | lia]; destruct b as [| q | q]; try lia.
  - reflexivity.
  - rewrite Prim2SF_to_float_0, (Prim2SF_to_float q) by (unfold below_2_53; lia). reflexivity.
  - rewrite Prim2SF_to_float_0, (Prim2SF_to_float p) by (unfold below_2_53; lia). reflexivity.
  - rewrite (Prim2SF_to_float p), (Prim2SF_to_float q) by (unfold below_2_53; lia).
    apply compare_canonical; unfold below_2_53; lia.
Qed.

Lemma to_float_ltb (a b : Z) :
  small_natural a -> small_natural b ->
  (PyNum.to_float a <? PyNum.to_float b)%float = (a <? b).
Proof.
  intros Ha Hb. rewrite ltb_spec. unfold SFltb. rewrite (to_float_compare a b Ha Hb).
  unfold Z.ltb. destruct (a ?= b); reflexivity.
Qed.

Lemma to_float_leb (a b : Z) :
  small_natural a -> small_natural b ->
  (PyNum.to_float a <=? PyNum.to_float b)%float = (a <=? b).
Proof.
  intros Ha Hb. rewrite leb_spec. unfold SFleb. rewrite (to_float_compare a b Ha Hb).
  unfold Z.leb. destruct (a ?= b); reflexivity.
Qed.

Lemma to_float_eqb (a b : Z) :
  small_natural a -> small_natural b ->
  (PyNum.to_float a =? PyNum.to_float b)%float = (a =? b).
Proof.
  intros Ha Hb. rewrite eqb_spec. unfold SFeqb. rewrite (to_float_compare a b Ha Hb).
  destruct (Z.eqb_spec a b), (Z.compare_spec a b); try reflexivity; lia.
Qed.

Lemma to_float_finite (n : Z) :
  small_natural n -> PrimFloat.is_infinity (PyNum.to_float n) = false.
Proof.
  intros Hn. unfold PrimFloat.is_infinity. rewrite eqb_spec, abs_spec.
  change (Prim2SF infinity) with (S754_infinity false).
  unfold small_natural in Hn. destruct n as [| p | p]; [reflexivity | | lia].
  rewrite (Prim2SF_to_float p) by (unfold below_2_53; lia). reflexivity.
Qed.

Lemma shift_right_52 (m : positive) :
  iter_pos shr_1 52 {| shr_m := Z.pos (Pos.iter xO m 52); shr_r := false; shr_s := false |}
  = {| shr_m := Z.pos m; shr_r := false; shr_s := false |}.
Proof. reflexivity. Qed.

(** Half of such a float is the same mantissa one exponent lower. *)
Lemma Prim2SF_half (p : positive) :
  below_2_53 (Z.pos p) ->
  Prim2SF (PyNum.to_float (Z.pos p) * 0.5)%float
  = S754_finite false (mantissa53 p) (exponent53 p - 1).
Proof.
  intros H. destruct (mantissa53_spec p H) as (Hd & _ & He).
  rewrite mul_spec, (Prim2SF_to_float p H).
  change (Prim2SF 0.5) with (S754_finite false 4503599627370496 (-53)).
  unfold SF64mul. cbn [SFmul xorb].
  replace (mantissa53 p * 4503599627370496)%positive with (Pos.iter xO (mantissa53 p) 52)
    by (rewrite Pos.mul_comm; reflexivity).
  generalize dependent (mantissa53 p). generalize dependent (exponent53 p). intros e He m Hd.
  assert (Hshift : fexp prec emax (Zdigits2 (Z.pos (Pos.iter xO m 52)) + (e + -53)) - (e + -53)
                   = 52).
  { unfold fexp, emin, prec, emax. cbn [Zdigits2]. rewrite digits2_iter_xO.
    rewrite Pos2Z.inj_add, Hd. lia. }
  assert (Hstay : fexp prec emax (Zdigits2 (Z.pos m) + (e + -53 + 52)) - (e + -53 + 52) = 0).
  { unfold fexp, emin, prec, emax. cbn [Zdigits2]. rewrite Hd. lia. }
  unfold binary_round_aux, shr_fexp. rewrite Hshift.
  cbn [shr shr_record_of_loc]. rewrite shift_right_52.
  cbn [shr_m loc_of_shr_record round_nearest_even]. rewrite Hstay.
  cbn [shr shr_record_of_loc shr_m].
  replace (e + -53 + 52 <=? emax - prec) with true
    by (symmetry; apply Z.leb_le; unfold emax, prec; lia).
  f_equal. lia.
Qed.

(** [int(n * 0.5)] is the integer half. *)
Lemma truncate_half (n : Z) :
  0 < n < 9007199254740992 -> PyNum.truncate (PyNum.to_float n * 0.5)%float = Some (n / 2).
Proof.
  intros Hn. destruct n as [| p | p]; try lia.
  assert (H : below_2_53 (Z.pos p)) by (unfold below_2_53; lia).
  destruct (mantissa53_spec p H) as (_ & Hv & He).
  unfold PyNum.truncate. rewrite (Prim2SF_half p H).
  destruct (Z.leb_spec 0 (exponent53 p - 1)) as [L | L]; [lia |].
  f_equal. rewrite Hv.
  replace (- (exponent53 p - 1)) with (- exponent53 p + 1) by lia.
  rewrite Z.pow_add_r, Z.pow_1_r by lia.
  assert (0 < 2 ^ (- exponent53 p)) by (apply Z.pow_pos_nonneg; lia).
  rewrite (Z.mul_comm (2 ^ (- exponent53 p)) 2).
  rewrite Z.div_mul_cancel_r by lia. reflexivity.
Qed.

Lemma usable_small (n : Z) : 0 < n < 9007199254740992 -> usable_divisor n = true.
Proof.
  intros Hn. unfold usable_divisor.
  rewrite to_float_finite by (unfold small_natural; lia).
  change 0%float with (PyNum.to_float 0).
  rewrite to_float_eqb by (unfold small_natural; lia).
  destruct (Z.eqb_spec n 0); [lia | reflexivity].
Qed.

Lemma fits_small (n : Z) : small_natural n -> PyNum.fits_mantissa n = true.
Proof. unfold small_natural. intros H. unfold PyNum.fits_mantissa. apply Z.ltb_lt. lia. Qed.

Lemma loan_term_usable (n : Z) : 12 <= n <= 480 -> usable_divisor n = true.
Proof. intros H. apply usable_small. lia. Qed.

(** *** The scoring function against the algorithm of the specification *)

Lemma bands3 (c1 c2 c3 : bool) (s x y z : Z) :
  (if c1 then s + x else if c2 then s + y else if c3 then s - z else s)
  = s + (if c1 then x else if c2 then y else if c3 then - z else 0).
Proof. destruct c1, c2, c3; lia. Qed.

Lemma bands4 (c1 c2 c3 c4 : bool) (s x y z t : Z) :
  (if c1 then s + x else if c2 then s + y else if c3 then s - z else if c4 then s - t else s)
  = s + (if c1 then x else if c2 then y else if c3 then - z else if c4 then - t else 0).
Proof. destruct c1, c2, c3, c4; lia. Qed.

Lemma bands2 (c1 c2 : bool) (s x y : Z) :
  (if c1 then s + x else if c2 then s - y else s)
  = s + (if c1 then x else if c2 then - y else 0).
Proof. destruct c1, c2; lia. Qed.

Lemma bands1 (c1 : bool) (s x : Z) :
  (if c1 then s + x else s) = s + (if c1 then x else 0).
Proof. destruct c1; lia. Qed.

Lemma fired_chain (c1 c2 c3 c4 c5 : bool) (t1 t2 t3 t4 t5 : string) :
  (let f := [] in
   let f := if c1 then f ++ [t1] else f in
   let f := if c2 then f ++ [t2] else f in
   let f := if c3 then f ++ [t3] else f in
   let f := if c4 then f ++ [t4] else f in
   let f := if c5 then f ++ [t5] else f in
   f)
  = Spec.fired [(c1, t1); (c2, t2); (c3, t3); (c4, t4); (c5, t5)].
Proof. destruct c1, c2, c3, c4, c5; reflexivity. Qed.

(** Names the value of the outermost [let] of a computation applied to a
    world, without unfolding the ones below it. *)
Ltac pull_let y :=
  lazymatch goal with
  | |- (let x := ?e in @?b x) ?w = ?r => pose (y := e); change (b y w = r); cbv beta
  end.

Lemma score_and_explain_run a d l p w :
  Main.score_and_explain a d l p w
  = (Returns (Spec.assessment a d l p (clock w (clock_reads w)) (clock w (S (clock_reads w)))),
     tick_clock (tick_clock w)).
Proof.
  cbv beta delta [Main.score_and_explain].
  pull_let s0. pull_let s1. pull_let s2. pull_let s3. pull_let s4. pull_let s5.
  pull_let s6. pull_let s7. pull_let s8. pull_let s9. pull_let score.
  assert (H1 : s1 = s0 + Spec.income_points (Main.applicant_income a))
    by (unfold s1; apply bands3).
  assert (H2 : s2 = s1 + Spec.debt_to_income_points d) by (unfold s2; apply bands4).
  assert (H3 : s3 = s2 + Spec.loan_to_income_points l) by (unfold s3; apply bands4).
  assert (H4 : s4 = s3 + Spec.credit_history_points (Main.credit_history_months a))
    by (unfold s4, Spec.credit_history_points; rewrite <- !Z.gtb_ltb; apply bands3).
  assert (H5 : s5 = s4 + Spec.employment_points (Main.employment_status a))
    by (unfold s5; apply bands2).
  assert (H6 : s6 = s5 + Spec.education_points (Main.education a))
    by (unfold s6; apply bands1).
  assert (H7 : s7 = s6 + Spec.property_area_points (Main.property_area a))
    by (unfold s7; apply bands2).
  assert (H8 : s8 = s7 + Spec.dependents_points (Main.dependents a))
    by (unfold s8, Spec.dependents_points; rewrite <- !Z.gtb_ltb; apply bands2).
  assert (H9 : s9 = s8 + Spec.loan_term_points (Main.loan_term_months a))
    by (unfold s9, Spec.loan_term_points; rewrite <- !Z.gtb_ltb; apply bands2).
  assert (Hscore : score = Spec.clamp (Spec.raw_score a d l)).
  { unfold score, Spec.clamp, Spec.raw_score.
    rewrite H9, H8, H7, H6, H5, H4, H3, H2, H1. reflexivity. }
  clearbody score. clear H1 H2 H3 H4 H5 H6 H7 H8 H9 s0 s1 s2 s3 s4 s5 s6 s7 s8 s9.
  assert (Hcat : (if score >=? 70 then ("LOW", "APPROVE")
                  else if score >=? 50 then ("MEDIUM", "REVIEW") else ("HIGH", "DECLINE"))
                 = (Spec.category score, Spec.recommendation score)).
  { unfold Spec.category, Spec.recommendation. rewrite !Z.geb_leb.
    destruct (70 <=? score), (50 <=? score); reflexivity. }
  rewrite Hcat. cbv beta iota.
  pull_let pf0. pull_let nf0. pull_let pf1. pull_let pf2. pull_let pf3. pull_let pf4.
  pull_let pf5. pull_let nf1. pull_let nf2. pull_let nf3. pull_let nf4. pull_let nf5.
  assert (Hpos : pf5 = Spec.fired (Spec.positive_rules a d l)).
  { unfold pf5, pf4, pf3, pf2, pf1, pf0. rewrite Z.gtb_ltb. apply fired_chain. }
  assert (Hneg : nf5 = Spec.fired (Spec.negative_rules a d l p)).
  { unfold nf5, nf4, nf3, nf2, nf1, nf0. apply fired_chain. }
  clearbody pf5 nf5. clear pf0 pf1 pf2 pf3 pf4 nf0 nf1 nf2 nf3 nf4.
  unfold bind at 1. unfold datetime_now at 1. cbv beta iota.
  unfold bind at 1. rewrite int_truediv_small.
  - unfold bind, datetime_now, ret. cbn [clock clock_reads entropy entropy_draws].
    unfold Spec.assessment, Spec.confidence, Spec.or_placeholder, Spec.placeholder, tick_clock.
    cbn [clock clock_reads entropy entropy_draws].
    rewrite <- Hscore, <- Hpos, <- Hneg. reflexivity.
  - discriminate.
  - unfold PyNum.fits_mantissa. apply Z.ltb_lt. rewrite Hscore. unfold Spec.clamp. lia.
  - reflexivity.
Qed.

Lemma valid_application_fields (a : Main.LoanApplication) :
  Main.valid_application a = true ->
  (Main.applicant_income a >? 0)%float = true
  /\ 12 <= Main.loan_term_months a <= 480.
Proof.
  unfold Main.valid_application, Main.field_constraints. intros H.
  repeat (apply andb_true_iff in H; destruct H as [H ?]).
  split; [assumption | lia].
Qed.

(** On a valid request no division fails, and the assessment is the one of
    the specification's algorithm on the ratios of its step 1. *)
Lemma calculate_risk_score_run (a : Main.LoanApplication) (w : World) :
  Main.valid_application a = true ->
  Main.calculate_risk_score a w
  = (Returns (Spec.assessment a (Spec.debt_to_income a) (Spec.loan_to_income a)
                (Spec.payment_to_income a)
                (clock w (clock_reads w)) (clock w (S (clock_reads w)))),
     tick_clock (tick_clock w)).
Proof.
  intros Hvalid. destruct (valid_application_fields a Hvalid) as [Hincome Hterm].
  apply float_positive_nonzero in Hincome.
  unfold Main.calculate_risk_score.
  rewrite (bind_returns _ _ w w _ (float_truediv_run _ _ w Hincome)).
  rewrite (bind_returns _ _ w w _ (float_truediv_run _ _ w Hincome)).
  rewrite (bind_returns _ _ w w _ (float_truediv_int_run _ _ w (loan_term_usable _ Hterm))).
  rewrite (bind_returns _ _ w w _ (float_truediv_run _ _ w Hincome)).
  apply score_and_explain_run.
Qed.

Lemma clamp_bounds (s : Z) : 0 <= Spec.clamp s <= 100.
Proof. unfold Spec.clamp. lia. Qed.

Lemma category_cases (s : Z) :
  (70 <= s /\ Spec.category s = "LOW" /\ Spec.recommendation s = "APPROVE")
  \/ (50 <= s < 70 /\ Spec.category s = "MEDIUM" /\ Spec.recommendation s = "REVIEW")
  \/ (s < 50 /\ Spec.category s = "HIGH" /\ Spec.recommendation s = "DECLINE").
Proof.
  unfold Spec.category, Spec.recommendation.
  destruct (Z.leb_spec 70 s); [left; auto |].
  destruct (Z.leb_spec 50 s); [right; left | right; right]; repeat split; auto.
Qed.

Lemma confidence_by_distance (s : Z) : Spec.confidence s = confidence_at (Z.abs (s - 50)).
Proof. reflexivity. Qed.

Lemma confidence_ranges (s : Z) :
  0 <= s <= 100 ->
  (0.75 <=? Spec.confidence s)%float = true
  /\ (Spec.confidence s <=? 0.85)%float = true
  /\ (Spec.confidence s <=? 0.95)%float = true.
Proof.
  intros Hs. rewrite confidence_by_distance.
  assert (H : confidence_in_ranges (Z.abs (s - 50)) = true).
  { apply (all_between confidence_in_ranges 0 50); [vm_cast_no_check (eq_refl true) | lia]. }
  unfold confidence_in_ranges in H. cbv zeta in H.
  apply andb_true_iff in H. destruct H as [H H95].
  apply andb_true_iff in H. destruct H as [H75 H85].
  repeat split; assumption.
Qed.

Lemma confidence_range (s : Z) :
  0 <= s <= 100 ->
  (0.75 <=? Spec.confidence s)%float = true /\ (Spec.confidence s <=? 0.85)%float = true.
Proof. intros Hs. destruct (confidence_ranges s Hs) as (H75 & H85 & _). split; assumption. Qed.

Lemma confidence_stated_range (s : Z) :
  0 <= s <= 100 ->
  (0.75 <=? Spec.confidence s)%float = true /\ (Spec.confidence s <=? 0.95)%float = true.
Proof. intros Hs. destruct (confidence_ranges s Hs) as (H75 & _ & H95). split; assumption. Qed.

Lemma confidence_monotone (s t : Z) :
  0 <= s <= 100 -> 0 <= t <= 100 -> Z.abs (s - 50) <= Z.abs (t - 50) ->
  (Spec.confidence s <=? Spec.confidence t)%float = true.
Proof.
  intros Hs Ht Hle. rewrite !confidence_by_distance.
  assert (H : confidence_ordered_from (Z.abs (s - 50)) = true).
  { apply (all_between confidence_ordered_from 0 50); [vm_cast_no_check (eq_refl true) | lia]. }
  unfold confidence_ordered_from in H. cbv zeta in H.
  pose proof (all_between _ 0 50 H (Z.abs (t - 50)) ltac:(lia)) as Hst.
  unfold confidence_ordered in Hst.
  apply Z.leb_le in Hle. rewrite Hle in Hst. exact Hst.
Qed.

(** ** The claims about [calculate_risk_score] *)

(** C1. For every valid request, [calculate_risk_score] returns, and the
    [risk_score] of the assessment lies between 0 and 100. *)
Theorem risk_score_bounded (a : Main.LoanApplication) (w : World) :
  Main.valid_application a = true ->
  exists r w', Main.calculate_risk_score a w = (Returns r, w')
               /\ 0 <= Main.risk_score r <= 100.
Proof.
  intros Hvalid. eexists. eexists. split.
  - apply calculate_risk_score_run. exact Hvalid.
  - apply clamp_bounds.
Qed.

Lemma risk_score_bounded_witness :
  Main.valid_application Samples.low_risk = true
  /\ exists r w', Main.calculate_risk_score Samples.low_risk Samples.world = (Returns r, w')
                  /\ 0 <= Main.risk_score r <= 100.
Proof.
  split; [reflexivity |].
  apply (risk_score_bounded Samples.low_risk Samples.world). reflexivity.
Defined.

(** C2. For every valid request, the score, the category and the
    recommendation of the assessment correspond three ways: at least 70, LOW
    and APPROVE; from 50 to below 70, MEDIUM and REVIEW; below 50, HIGH and
    DECLINE. *)
Theorem category_follows_score (a : Main.LoanApplication) (w : World) :
  Main.valid_application a = true ->
  exists r w',
    Main.calculate_risk_score a w = (Returns r, w')
    /\ (70 <= Main.risk_score r <-> Main.risk_category r = "LOW")
    /\ (Main.risk_category r = "LOW" <-> Main.approval_recommendation r = "APPROVE")
    /\ (50 <= Main.risk_score r < 70 <-> Main.risk_category r = "MEDIUM")
    /\ (Main.risk_category r = "MEDIUM" <-> Main.approval_recommendation r = "REVIEW")
    /\ (Main.risk_score r < 50 <-> Main.risk_category r = "HIGH")
    /\ (Main.risk_category r = "HIGH" <-> Main.approval_recommendation r = "DECLINE").
Proof.
  intros Hvalid. eexists. eexists. split.
  - apply calculate_risk_score_run. exact Hvalid.
  - cbn [Spec.assessment Main.risk_score Main.risk_category Main.approval_recommendation].
    generalize (Spec.clamp (Spec.raw_score a (Spec.debt_to_income a) (Spec.loan_to_income a))).
    intros s.
    destruct (category_cases s) as [(Hs & -> & ->) | [(Hs & -> & ->) | (Hs & -> & ->)]];
      repeat split; intros; try reflexivity; try discriminate; lia.
Qed.

Lemma category_follows_score_witness :
  Main.valid_application Samples.schema_example = true
  /\ exists r w',
    Main.calculate_risk_score Samples.schema_example Samples.world = (Returns r, w')
    /\ (70 <= Main.risk_score r <-> Main.risk_category r = "LOW")
    /\ (Main.risk_category r = "LOW" <-> Main.approval_recommendation r = "APPROVE")
    /\ (50 <= Main.risk_score r < 70 <-> Main.risk_category r = "MEDIUM")
    /\ (Main.risk_category r = "MEDIUM" <-> Main.approval_recommendation r = "REVIEW")
    /\ (Main.risk_score r < 50 <-> Main.risk_category r = "HIGH")
    /\ (Main.risk_category r = "HIGH" <-> Main.approval_recommendation r = "DECLINE").
Proof.
  split; [reflexivity |].
  apply (category_follows_score Samples.schema_example Samples.world). reflexivity.
Defined.

(** C3. Two calls on the same valid request, whatever the clock, the entropy
    and the calls made before them, both return and agree on [risk_score],
    [risk_category], [approval_recommendation] and on both lists of
    [key_factors]. *)
Theorem assessment_deterministic (a : Main.LoanApplication) (w1 w2 : World) :
  Main.valid_application a = true ->
  exists r1 r2 w1' w2',
    Main.calculate_risk_score a w1 = (Returns r1, w1')
    /\ Main.calculate_risk_score a w2 = (Returns r2, w2')
    /\ Main.risk_score r1 = Main.risk_score r2
    /\ Main.risk_category r1 = Main.risk_category r2
    /\ Main.approval_recommendation r1 = Main.approval_recommendation r2
    /\ Main.dict_get (Main.key_factors r1) "positive"
       = Main.dict_get (Main.key_factors r2) "positive"
    /\ Main.dict_get (Main.key_factors r1) "negative"
       = Main.dict_get (Main.key_factors r2) "negative"
    /\ Main.key_factors r1 = Main.key_factors r2.
Proof.
  intros Hvalid. do 4 eexists.
  split; [apply calculate_risk_score_run; exact Hvalid |].
  split; [apply calculate_risk_score_run; exact Hvalid |].
  cbn [Spec.assessment Main.risk_score Main.risk_category Main.approval_recommendation
       Main.key_factors].
  repeat split; reflexivity.
Qed.

Lemma assessment_deterministic_witness :
  Main.valid_application Samples.high_risk = true
  /\ exists r1 r2 w1' w2',
    Main.calculate_risk_score Samples.high_risk Samples.world = (Returns r1, w1')
    /\ Main.calculate_risk_score Samples.high_risk Samples.other_world = (Returns r2, w2')
    /\ Main.risk_score r1 = Main.risk_score r2
    /\ Main.risk_category r1 = Main.risk_category r2
    /\ Main.approval_recommendation r1 = Main.approval_recommendation r2
    /\ Main.dict_get (Main.key_factors r1) "positive"
       = Main.dict_get (Main.key_factors r2) "positive"
    /\ Main.dict_get (Main.key_factors r1) "negative"
       = Main.dict_get (Main.key_factors r2) "negative"
    /\ Main.key_factors r1 = Main.key_factors r2.
Proof.
  split; [reflexivity |].
  apply (assessment_deterministic Samples.high_risk Samples.world Samples.other_world).
  reflexivity.
Defined.

(** C4. For every valid request the confidence is
    [0.75 + (|risk_score - 50| / 100) * 0.2] rounded to two decimals and lies
    in [0.75, 0.95]; and of two valid requests, the one whose score is no
    farther from 50 has no larger a confidence. *)
Theorem confidence_formula_monotone (a1 a2 : Main.LoanApplication) (w1 w2 : World) :
  Main.valid_application a1 = true ->
  Main.valid_application a2 = true ->
  exists r1 r2 w1' w2',
    Main.calculate_risk_score a1 w1 = (Returns r1, w1')
    /\ Main.calculate_risk_score a2 w2 = (Returns r2, w2')
    /\ Main.confidence r1
       = PyNum.round
           (0.75 + PyNum.to_float (Z.abs (Main.risk_score r1 - 50)) / 100 * 0.2)%float 2
    /\ (0.75 <=? Main.confidence r1)%float = true
    /\ (Main.confidence r1 <=? 0.95)%float = true
    /\ (Z.abs (Main.risk_score r1 - 50) <= Z.abs (Main.risk_score r2 - 50) ->
        (Main.confidence r1 <=? Main.confidence r2)%float = true).
Proof.
  intros Hvalid1 Hvalid2. do 4 eexists.
  split; [apply calculate_risk_score_run; exact Hvalid1 |].
  split; [apply calculate_risk_score_run; exact Hvalid2 |].
  cbn [Spec.assessment Main.risk_score Main.confidence].
  pose proof (clamp_bounds (Spec.raw_score a1 (Spec.debt_to_income a1) (Spec.loan_to_income a1)))
    as Hs1.
  pose proof (clamp_bounds (Spec.raw_score a2 (Spec.debt_to_income a2) (Spec.loan_to_income a2)))
    as Hs2.
  revert Hs1 Hs2.
  generalize (Spec.clamp (Spec.raw_score a1 (Spec.debt_to_income a1) (Spec.loan_to_income a1))).
  generalize (Spec.clamp (Spec.raw_score a2 (Spec.debt_to_income a2) (Spec.loan_to_income a2))).
  intros s2 s1 Hs1 Hs2.
  destruct (confidence_stated_range s1 Hs1) as [Hlow Hhigh].
  split; [reflexivity |].
  split; [exact Hlow |].
  split; [exact Hhigh |].
  intros Hle. apply confidence_monotone; assumption.
Qed.

Lemma confidence_formula_monotone_witness :
  Main.valid_application Samples.plain = true
  /\ Main.valid_application Samples.low_risk = true
  /\ exists r1 r2 w1' w2',
    Main.calculate_risk_score Samples.plain Samples.world = (Returns r1, w1')
    /\ Main.calculate_risk_score Samples.low_risk Samples.other_world = (Returns r2, w2')
    /\ Main.confidence r1
       = PyNum.round
           (0.75 + PyNum.to_float (Z.abs (Main.risk_score r1 - 50)) / 100 * 0.2)%float 2
    /\ (0.75 <=? Main.confidence r1)%float = true
    /\ (Main.confidence r1 <=? 0.95)%float = true
    /\ (Z.abs (Main.risk_score r1 - 50) <= Z.abs (Main.risk_score r2 - 50) ->
        (Main.confidence r1 <=? Main.confidence r2)%float = true).
Proof.
  split; [reflexivity |]. split; [reflexivity |].
  apply (confidence_formula_monotone Samples.plain Samples.low_risk
           Samples.world Samples.other_world); reflexivity.
Defined.

Lemma fired_nil (rules : list (bool * string)) :
  Spec.fired rules = [] <-> Forall (fun rule => fst rule = false) rules.
Proof.
  unfold Spec.fired. induction rules as [| [c t] rest IH]; simpl.
  - split; [constructor | reflexivity].
  - destruct c; simpl.
    + split; [discriminate | intros H; inversion H; discriminate].
    + rewrite IH. split.
      * constructor; [reflexivity | assumption].
      * intros H. inversion H. assumption.
Qed.

Lemma fired_texts (rules : list (bool * string)) (t : string) :
  In t (Spec.fired rules) -> In t (map snd rules).
Proof.
  unfold Spec.fired. intros H. apply in_map_iff in H. destruct H as [rule [Ht Hin]].
  apply filter_In in Hin. apply in_map_iff. exists rule. tauto.
Qed.

(** A list of fired rules, none of whose texts is the placeholder, shows the
    placeholder exactly when no rule fired, and then shows nothing else. *)
Lemma or_placeholder_spec (rules : list (bool * string)) :
  ~ In Spec.placeholder (map snd rules) ->
  (Spec.or_placeholder (Spec.fired rules) = [Spec.placeholder]
   <-> Forall (fun rule => fst rule = false) rules)
  /\ (In Spec.placeholder (Spec.or_placeholder (Spec.fired rules))
      -> Spec.or_placeholder (Spec.fired rules) = [Spec.placeholder]).
Proof.
  intros Hfresh. rewrite <- fired_nil.
  pose proof (fired_texts rules Spec.placeholder) as Htexts.
  destruct (Spec.fired rules) as [| t rest] eqn:E; simpl.
  - split; [tauto | reflexivity].
  - split.
    + split; [| discriminate]. intros H. inversion H. subst.
      exfalso. apply Hfresh, Htexts. left. reflexivity.
    + intros H. exfalso. apply Hfresh, Htexts. exact H.
Qed.

Lemma Forall5 {A} (P : A -> Prop) (x1 x2 x3 x4 x5 : A) :
  Forall P [x1; x2; x3; x4; x5] <-> P x1 /\ P x2 /\ P x3 /\ P x4 /\ P x5.
Proof.
  split.
  - intros H.
    repeat (inversion H as [| ? ? ? H']; subst; clear H; rename H' into H;
            split; [assumption |]).
    inversion H; subst. assumption.
  - intros (H1 & H2 & H3 & H4 & H5). repeat constructor; assumption.
Qed.

(** C5. For every valid request, each list of [key_factors] is the
    one-element list of the placeholder exactly when none of its five rules
    fires, and a list that holds the placeholder holds nothing else. *)
Theorem placeholder_iff_no_rule (a : Main.LoanApplication) (w : World) :
  Main.valid_application a = true ->
  exists r w' positive negative,
    Main.calculate_risk_score a w = (Returns r, w')
    /\ Main.dict_get (Main.key_factors r) "positive" = Some positive
    /\ Main.dict_get (Main.key_factors r) "negative" = Some negative
    /\ (positive = ["None identified"]
        <-> (Main.applicant_income a >? 60000)%float = false
            /\ (Spec.debt_to_income a <? 30)%float = false
            /\ (48 <? Main.credit_history_months a) = false
            /\ (Main.employment_status a =? "employed")%string = false
            /\ (Spec.loan_to_income a <? 3)%float = false)
    /\ (negative = ["None identified"]
        <-> (Spec.debt_to_income a >? 40)%float = false
            /\ (Spec.loan_to_income a >? 4)%float = false
            /\ (Main.credit_history_months a <? 24) = false
            /\ (Main.employment_status a =? "unemployed")%string = false
            /\ (Spec.payment_to_income a >? 40)%float = false)
    /\ (In "None identified" positive -> positive = ["None identified"])
    /\ (In "None identified" negative -> negative = ["None identified"]).
Proof.
  intros Hvalid. do 4 eexists.
  split; [apply calculate_risk_score_run; exact Hvalid |].
  split; [reflexivity |]. split; [reflexivity |].
  cbn [Spec.assessment Main.key_factors].
  destruct (or_placeholder_spec
              (Spec.positive_rules a (Spec.debt_to_income a) (Spec.loan_to_income a)))
    as [Hpos Hpos'].
  { cbn. intros H. repeat (destruct H as [H | H]; [discriminate H |]). exact H. }
  destruct (or_placeholder_spec
              (Spec.negative_rules a (Spec.debt_to_income a) (Spec.loan_to_income a)
                 (Spec.payment_to_income a)))
    as [Hneg Hneg'].
  { cbn. intros H. repeat (destruct H as [H | H]; [discriminate H |]). exact H. }
  unfold Spec.positive_rules in Hpos. rewrite Forall5 in Hpos.
  unfold Spec.negative_rules, Spec.negative_rules_but_last, Spec.payment_rule in Hneg.
  cbn [app] in Hneg. rewrite Forall5 in Hneg.
  split; [exact Hpos |]. split; [exact Hneg |]. split; [exact Hpos' | exact Hneg'].
Qed.

Lemma placeholder_iff_no_rule_witness :
  Main.valid_application Samples.plain = true
  /\ exists r w' positive negative,
    Main.calculate_risk_score Samples.plain Samples.world = (Returns r, w')
    /\ Main.dict_get (Main.key_factors r) "positive" = Some positive
    /\ Main.dict_get (Main.key_factors r) "negative" = Some negative
    /\ (positive = ["None identified"]
        <-> (Main.applicant_income Samples.plain >? 60000)%float = false
            /\ (Spec.debt_to_income Samples.plain <? 30)%float = false
            /\ (48 <? Main.credit_history_months Samples.plain) = false
            /\ (Main.employment_status Samples.plain =? "employed")%string = false
            /\ (Spec.loan_to_income Samples.plain <? 3)%float = false)
    /\ (negative = ["None identified"]
        <-> (Spec.debt_to_income Samples.plain >? 40)%float = false
            /\ (Spec.loan_to_income Samples.plain >? 4)%float = false
            /\ (Main.credit_history_months Samples.plain <? 24) = false
            /\ (Main.employment_status Samples.plain =? "unemployed")%string = false
            /\ (Spec.payment_to_income Samples.plain >? 40)%float = false)
    /\ (In "None identified" positive -> positive = ["None identified"])
    /\ (In "None identified" negative -> negative = ["None identified"]).
Proof.
  split; [reflexivity |].
  apply (placeholder_iff_no_rule Samples.plain Samples.world). reflexivity.
Defined.

(** C7. For every valid request, the score is the clamped sum of the base 50
    and the nine band adjustments, none of which reads [payment_to_income];
    and had [payment_to_income] any other value [p], the assessment would be
    the same in every field but the negative list, where only the entry
    "High monthly payment burden" (and with it the placeholder of an empty
    list) depends on it. *)
Theorem payment_to_income_only_explains (a : Main.LoanApplication) (w : World) (p : float) :
  Main.valid_application a = true ->
  let dti := Spec.debt_to_income a in
  let lti := Spec.loan_to_income a in
  let others := Spec.fired (Spec.negative_rules_but_last a dti lti) in
  let burden (pti : float) :=
    if (pti >? 40)%float then ["High monthly payment burden"] else [] in
  exists r r' w',
    Main.calculate_risk_score a w = (Returns r, w')
    /\ Main.score_and_explain a dti lti p w = (Returns r', w')
    /\ Main.risk_score r
       = Z.max 0 (Z.min 100
           (50 + Spec.income_points (Main.applicant_income a)
               + Spec.debt_to_income_points dti
               + Spec.loan_to_income_points lti
               + Spec.credit_history_points (Main.credit_history_months a)
               + Spec.employment_points (Main.employment_status a)
               + Spec.education_points (Main.education a)
               + Spec.property_area_points (Main.property_area a)
               + Spec.dependents_points (Main.dependents a)
               + Spec.loan_term_points (Main.loan_term_months a)))
    /\ Main.risk_score r' = Main.risk_score r
    /\ Main.risk_category r' = Main.risk_category r
    /\ Main.approval_recommendation r' = Main.approval_recommendation r
    /\ Main.confidence r' = Main.confidence r
    /\ Main.debt_to_income_ratio r' = Main.debt_to_income_ratio r
    /\ Main.loan_to_income_ratio r' = Main.loan_to_income_ratio r
    /\ Main.application_id r' = Main.application_id r
    /\ Main.processed_at r' = Main.processed_at r
    /\ Main.dict_get (Main.key_factors r') "positive"
       = Main.dict_get (Main.key_factors r) "positive"
    /\ Main.dict_get (Main.key_factors r) "negative"
       = Some (Spec.or_placeholder (others ++ burden (Spec.payment_to_income a)))
    /\ Main.dict_get (Main.key_factors r') "negative"
       = Some (Spec.or_placeholder (others ++ burden p)).
Proof.
  intros Hvalid dti lti others burden. do 3 eexists.
  split; [apply calculate_risk_score_run; exact Hvalid |].
  split; [apply score_and_explain_run |].
  cbn [Spec.assessment Main.risk_score Main.risk_category Main.approval_recommendation
       Main.confidence Main.debt_to_income_ratio Main.loan_to_income_ratio
       Main.application_id Main.processed_at Main.key_factors].
  assert (Hneg : forall pti, Spec.fired (Spec.negative_rules a dti lti pti) = others ++ burden pti).
  { intros pti. unfold Spec.negative_rules, Spec.fired, others, burden, Spec.payment_rule.
    rewrite filter_app, map_app. cbn [filter map fst snd].
    destruct (pti >? 40)%float; reflexivity. }
  repeat split; try reflexivity.
  - cbn [Main.dict_get String.eqb Ascii.eqb Bool.eqb]. fold dti lti. rewrite Hneg. reflexivity.
  - cbn [Main.dict_get String.eqb Ascii.eqb Bool.eqb]. fold dti lti. rewrite Hneg. reflexivity.
Qed.

Lemma payment_to_income_only_explains_witness :
  Main.valid_application Samples.plain = true
  /\ exists r r' w',
    Main.calculate_risk_score Samples.plain Samples.world = (Returns r, w')
    /\ Main.score_and_explain Samples.plain (Spec.debt_to_income Samples.plain)
         (Spec.loan_to_income Samples.plain) 41 Samples.world = (Returns r', w')
    /\ Main.risk_score r = 55
    /\ Main.risk_score r' = 55
    /\ Main.dict_get (Main.key_factors r) "negative" = Some ["None identified"]
    /\ Main.dict_get (Main.key_factors r') "negative" = Some ["High monthly payment burden"].
Proof.
  split; [reflexivity |].
  destruct (payment_to_income_only_explains Samples.plain Samples.world 41 eq_refl)
    as (r & r' & w' & Hr & Hr' & Hscore & Hscore' & _ & _ & _ & _ & _ & _ & _ & _ & Hneg & Hneg').
  exists r, r', w'. rewrite Hscore', Hneg, Hneg', Hscore.
  repeat split; try assumption; reflexivity.
Defined.

(** C9. On the low-risk request of the test suite (income 100000, loan
    150000 over 180 months, 96 months of credit history, employed, urban,
    one dependent, graduate, debt 5000) the assessment is LOW, APPROVE, with
    a score of at least 70. *)
Theorem low_risk_scenario (w : World) :
  exists r w',
    Main.calculate_risk_score
      (Main.mk_LoanApplication 100000 150000 180 96 "employed" "urban" 1 "graduate" 5000) w
    = (Returns r, w')
    /\ Main.risk_category r = "LOW"
    /\ Main.approval_recommendation r = "APPROVE"
    /\ 70 <= Main.risk_score r.
Proof.
  do 2 eexists. split; [apply calculate_risk_score_run; reflexivity |].
  cbn [Spec.assessment Main.risk_score Main.risk_category Main.approval_recommendation].
  assert (Hscore : Spec.clamp (Spec.raw_score Samples.low_risk
                                 (Spec.debt_to_income Samples.low_risk)
                                 (Spec.loan_to_income Samples.low_risk)) = 100)
    by (vm_compute; reflexivity).
  change (Main.mk_LoanApplication 100000 150000 180 96 "employed" "urban" 1 "graduate" 5000)
    with Samples.low_risk.
  rewrite Hscore. repeat split. discriminate.
Qed.

(** C10. For every valid request the confidence is at most 0.85 (and at
    least 0.75); 0.85 is reached, at score 100 and at score 0, and it is
    below the 0.95 of the specification. *)
Theorem confidence_at_most_085 (a : Main.LoanApplication) (w : World) :
  Main.valid_application a = true ->
  (exists r w',
     Main.calculate_risk_score a w = (Returns r, w')
     /\ (0.75 <=? Main.confidence r)%float = true
     /\ (Main.confidence r <=? 0.85)%float = true)
  /\ (exists r w',
        Main.valid_application Samples.low_risk = true
        /\ Main.calculate_risk_score Samples.low_risk w = (Returns r, w')
        /\ Main.risk_score r = 100 /\ Main.confidence r = 0.85%float)
  /\ (exists r w',
        Main.valid_application Samples.high_risk = true
        /\ Main.calculate_risk_score Samples.high_risk w = (Returns r, w')
        /\ Main.risk_score r = 0 /\ Main.confidence r = 0.85%float)
  /\ (0.85 <? 0.95)%float = true.
Proof.
  intros Hvalid. split; [| split; [| split]].
  - do 2 eexists. split; [apply calculate_risk_score_run; exact Hvalid |].
    cbn [Spec.assessment Main.confidence].
    apply confidence_range, clamp_bounds.
  - do 2 eexists. split; [reflexivity |].
    split; [apply calculate_risk_score_run; reflexivity |].
    cbn [Spec.assessment Main.risk_score Main.confidence].
    split; vm_compute; reflexivity.
  - do 2 eexists. split; [reflexivity |].
    split; [apply calculate_risk_score_run; reflexivity |].
    cbn [Spec.assessment Main.risk_score Main.confidence].
    split; vm_compute; reflexivity.
  - reflexivity.
Qed.

Lemma confidence_at_most_085_witness :
  Main.valid_application Samples.schema_example = true
  /\ exists r w',
     Main.calculate_risk_score Samples.schema_example Samples.world = (Returns r, w')
     /\ (0.75 <=? Main.confidence r)%float = true
     /\ (Main.confidence r <=? 0.85)%float = true.
Proof.
  split; [reflexivity |].
  exact (proj1 (confidence_at_most_085 Samples.schema_example Samples.world eq_refl)).
Defined.

(** ** The claims about [generate_data.py] *)

(** *** The library functions of the generator *)

Lemma randint_run (a b : Z) (w : World) :
  a <= b ->
  PyRandom.randint a b w = (Returns (a + raw_draw w mod (b - a + 1)), tick_entropy w)
  /\ a <= a + raw_draw w mod (b - a + 1) <= b.
Proof.
  intros Hab. split.
  - unfold PyRandom.randint. destruct (Z.ltb_spec b a) as [Hlt | _]; [lia |]. reflexivity.
  - pose proof (Z.mod_pos_bound (raw_draw w) (b - a + 1)). lia.
Qed.

Lemma choice_run {A} (seq : list A) (w : World) :
  seq <> [] ->
  exists x, In x seq /\ PyRandom.choice seq w = (Returns x, tick_entropy w).
Proof.
  intros Hne. unfold PyRandom.choice, bind, random_raw. fold (raw_draw w).
  destruct (nth_error seq (Z.to_nat (raw_draw w mod Z.of_nat (List.length seq)))) as [x |] eqn:E.
  - exists x. split; [exact (nth_error_In _ _ E) | reflexivity].
  - exfalso. apply nth_error_None in E.
    assert (0 < Z.of_nat (List.length seq)) by (destruct seq; [contradiction | simpl; lia]).
    pose proof (Z.mod_pos_bound (raw_draw w) (Z.of_nat (List.length seq))). lia.
Qed.

Lemma bisect_le_hi (a : list Z) (x : float) :
  forall lo hi, (PyRandom.bisect a x lo hi <= hi)%nat.
Proof.
  induction a as [| y rest IH]; intros lo hi; simpl.
  - lia.
  - destruct lo, hi; try lia.
    + destruct (x <? PyNum.to_float y)%float; [lia |]. specialize (IH O hi). lia.
    + specialize (IH lo hi). lia.
Qed.

Lemma dependents_run (w : World) :
  exists x, In x [0; 1; 2; 3; 4]
            /\ PyRandom.choices [0; 1; 2; 3; 4] [30; 25; 25; 15; 5] w
               = (Returns [x], tick_entropy w).
Proof.
  unfold PyRandom.choices. cbv zeta.
  assert (Hcum : PyRandom.accumulate_from 0 [30; 25; 25; 15; 5] = [30; 55; 80; 95; 100])
    by reflexivity.
  rewrite Hcum.
  assert (Hlen : negb (Nat.eqb (List.length [30; 55; 80; 95; 100])
                               (List.length [0; 1; 2; 3; 4])) = false) by reflexivity.
  rewrite Hlen.
  assert (Htotal : (PyNum.to_float (last [30; 55; 80; 95; 100]%Z 0%Z) + 0 <=? 0)%float = false)
    by (vm_compute; reflexivity).
  rewrite Htotal.
  unfold PyRandom.random, random_raw. unfold bind, ret. fold (raw_draw w).
  cbn [List.length Nat.sub].
  match goal with
  | |- context [PyRandom.bisect ?cum ?x 0%nat 4%nat] =>
      generalize (bisect_le_hi cum x 0 4); generalize (PyRandom.bisect cum x 0 4)
  end.
  intros [| [| [| [| [| n]]]]] Hle; try lia; eexists; (split; [| reflexivity]); simpl; tauto.
Qed.

(** *** The scoring half of the generator *)

Ltac step H := rewrite (bind_returns _ _ _ _ _ H); cbv beta.

(** An integer income compares with the three thresholds as its float does. *)
Lemma income_thresholds (income : Z) :
  small_natural income ->
  (income >? 80000) = (PyNum.to_float income >? 80000)%float
  /\ (income >? 50000) = (PyNum.to_float income >? 50000)%float
  /\ (income <? 25000) = (PyNum.to_float income <? 25000)%float.
Proof.
  intros H.
  change 80000%float with (PyNum.to_float 80000).
  change 50000%float with (PyNum.to_float 50000).
  change 25000%float with (PyNum.to_float 25000).
  rewrite !to_float_ltb by (exact H || (unfold small_natural; lia)).
  rewrite !Z.gtb_ltb. repeat split.
Qed.

Lemma score_profile_run (income loan_amount loan_term credit_history : Z)
    (employment property_area : string) (dependents : Z) (education : string)
    (existing_debt : Z) (w : World) :
  0 < income < 9007199254740992 ->
  small_natural loan_amount -> small_natural existing_debt ->
  0 < loan_term < 9007199254740992 ->
  365 < toordinal (clock w (clock_reads w)) <= PyDatetime.MAXORDINAL ->
  let now := clock w (clock_reads w) in
  let date := mk_datetime (toordinal now - (0 + raw_draw w mod (365 - 0 + 1)))
                          (hour now) (minute now) (second now) (microsecond now) in
  GenerateData.score_profile income loan_amount loan_term credit_history employment
    property_area dependents education existing_debt w
  = (Returns (Dataset.row income loan_amount loan_term credit_history employment
                property_area dependents education existing_debt date),
     tick_entropy (tick_clock w)).
Proof.
  intros Hincome Hloan Hdebt Hterm Hclock now date.
  assert (Sincome : small_natural income) by (unfold small_natural; lia).
  assert (Sterm : small_natural loan_term) by (unfold small_natural; lia).
  destruct (income_thresholds income Sincome) as (H1 & H0 & H).
  cbv beta delta [GenerateData.score_profile].
  step (int_truediv_small existing_debt income w ltac:(lia)
          (fits_small _ Hdebt) (fits_small _ Sincome)).
  pull_let dti.
  step (int_truediv_small loan_amount income w ltac:(lia)
          (fits_small _ Hloan) (fits_small _ Sincome)).
  step (int_truediv_small loan_amount loan_term w ltac:(lia)
          (fits_small _ Hloan) (fits_small _ Sterm)).
  step (float_truediv_int_run (PyNum.to_float loan_amount / PyNum.to_float loan_term * 12)%float
          income w (usable_small income Hincome)).
  pull_let pti. clear pti.
  pull_let s0. pull_let s1. pull_let s2. pull_let s3. pull_let s4. pull_let s5.
  pull_let s6. pull_let s7. pull_let s8. pull_let s9. pull_let score.
  set (a := Dataset.request income loan_amount loan_term credit_history employment
              property_area dependents education existing_debt).
  assert (E1 : s1 = s0 + Spec.income_points (Main.applicant_income a))
    by (unfold s1, Spec.income_points; cbn [a Dataset.request Main.applicant_income];
        rewrite <- H, <- H0, <- H1; apply bands3).
  assert (E2 : s2 = s1 + Spec.debt_to_income_points (Spec.debt_to_income a))
    by (unfold s2; apply bands4).
  assert (E3 : s3 = s2 + Spec.loan_to_income_points (Spec.loan_to_income a))
    by (unfold s3; apply bands4).
  assert (E4 : s4 = s3 + Spec.credit_history_points (Main.credit_history_months a))
    by (unfold s4, Spec.credit_history_points; rewrite <- !Z.gtb_ltb; apply bands3).
  assert (E5 : s5 = s4 + Spec.employment_points (Main.employment_status a))
    by (unfold s5; apply bands2).
  assert (E6 : s6 = s5 + Spec.education_points (Main.education a))
    by (unfold s6; apply bands1).
  assert (E7 : s7 = s6 + Spec.property_area_points (Main.property_area a))
    by (unfold s7; apply bands2).
  assert (E8 : s8 = s7 + Spec.dependents_points (Main.dependents a))
    by (unfold s8, Spec.dependents_points; rewrite <- !Z.gtb_ltb; apply bands2).
  assert (E9 : s9 = s8 + Spec.loan_term_points (Main.loan_term_months a))
    by (unfold s9, Spec.loan_term_points; rewrite <- !Z.gtb_ltb; apply bands2).
  assert (Hscore : score
                   = Spec.clamp (Spec.raw_score a (Spec.debt_to_income a) (Spec.loan_to_income a))).
  { unfold score, Spec.clamp, Spec.raw_score.
    rewrite E9, E8, E7, E6, E5, E4, E3, E2, E1. reflexivity. }
  clearbody score. clear E1 E2 E3 E4 E5 E6 E7 E8 E9 s0 s1 s2 s3 s4 s5 s6 s7 s8 s9.
  assert (Hcat : (if score >=? 70 then ("LOW", "APPROVED")
                  else if score >=? 50 then ("MEDIUM", "REVIEW") else ("HIGH", "DECLINED"))
                 = (Spec.category score, Dataset.label (Spec.recommendation score))).
  { unfold Spec.category, Spec.recommendation. rewrite !Z.geb_leb.
    destruct (70 <=? score), (50 <=? score); reflexivity. }
  rewrite Hcat. cbv beta iota.
  unfold bind at 1. unfold datetime_now at 1. cbv beta iota.
  destruct (randint_run 0 365 (tick_clock w) ltac:(lia)) as [Hdays Hrange].
  fold (tick_clock w).
  step Hdays.
  change (raw_draw (tick_clock w)) with (raw_draw w) in *.
  fold now. fold now in Hclock.
  assert (Hsub : PyDatetime.sub_days now (0 + raw_draw w mod (365 - 0 + 1))
                   (tick_entropy (tick_clock w))
                 = (Returns date, tick_entropy (tick_clock w))).
  { unfold PyDatetime.sub_days. cbv zeta.
    replace ((0 <? toordinal now - (0 + raw_draw w mod (365 - 0 + 1)))
             && (toordinal now - (0 + raw_draw w mod (365 - 0 + 1)) <=? PyDatetime.MAXORDINAL))
      with true; [reflexivity |].
    symmetry. apply andb_true_iff. split; [apply Z.ltb_lt | apply Z.leb_le]; lia. }
  step Hsub.
  unfold ret, Dataset.row. cbv zeta. fold a. rewrite <- Hscore. reflexivity.
Qed.

(** *** The sampling half of the generator *)

Lemma int_of_float_run (x : float) (n : Z) (w : World) :
  PyNum.truncate x = Some n -> PyNum.int_of_float x w = (Returns n, w).
Proof. intros H. unfold PyNum.int_of_float. rewrite H. reflexivity. Qed.

Lemma float_of_int_run (n : Z) (w : World) :
  PrimFloat.is_infinity (PyNum.to_float n) = false ->
  PyNum.float_of_int n w = (Returns (PyNum.to_float n), w).
Proof. intros H. unfold PyNum.float_of_int. rewrite H. reflexivity. Qed.

(** On any world, the sampling part draws nine times, never fails, and hands
    a profile of the sampled ranges to the scoring part. *)
Lemma generate_application_samples (w : World) :
  exists income loan_amount loan_term credit_history employment property_area dependents
         education existing_debt,
    Dataset.sampled income loan_amount loan_term credit_history employment property_area
                    dependents education existing_debt
    /\ GenerateData.generate_application w
       = GenerateData.score_profile income loan_amount loan_term credit_history employment
           property_area dependents education existing_debt (after_profile w).
Proof.
  unfold GenerateData.generate_application.
  destruct (randint_run 25000 150000 w ltac:(lia)) as [R1 B1].
  step R1. set (w1 := tick_entropy w).
  destruct (randint_run 50000 500000 w1 ltac:(lia)) as [R2 B2].
  step R2. set (w2 := tick_entropy w1).
  destruct (choice_run [60; 120; 180; 240; 360] w2 ltac:(discriminate)) as (term & I3 & R3).
  step R3. set (w3 := tick_entropy w2).
  destruct (randint_run 0 120 w3 ltac:(lia)) as [R4 B4].
  step R4. set (w4 := tick_entropy w3).
  destruct (choice_run ["employed"; "employed"; "employed"; "self_employed"; "unemployed"]
              w4 ltac:(discriminate)) as (emp & I5 & R5).
  step R5. set (w5 := tick_entropy w4).
  destruct (choice_run ["urban"; "urban"; "suburban"; "rural"] w5 ltac:(discriminate))
    as (area & I6 & R6).
  step R6. set (w6 := tick_entropy w5).
  destruct (dependents_run w6) as (dep & I7 & R7).
  step R7. set (w7 := tick_entropy w6).
  unfold PyList.item0 at 1. unfold bind at 1, ret at 1. cbv beta iota.
  destruct (choice_run ["graduate"; "graduate"; "not_graduate"] w7 ltac:(discriminate))
    as (edu & I8 & R8).
  step R8. set (w8 := tick_entropy w7).
  set (income := 25000 + raw_draw w mod (150000 - 25000 + 1)) in *.
  step (float_of_int_run income w8 (to_float_finite income ltac:(unfold small_natural; lia))).
  step (int_of_float_run _ _ w8 (truncate_half income ltac:(lia))).
  destruct (randint_run 0 (income / 2) w8 ltac:(apply Z.div_pos; lia)) as [R9 B9].
  step R9.
  do 9 eexists. split; [| reflexivity].
  unfold Dataset.sampled. repeat split; try assumption; lia.
Qed.

(** When the clock reads a date from 0002-01-01 on, [generate_application]
    returns the row of a sampled profile, dated at most 365 days before the
    reading; it reads the clock once and draws ten times. *)
Lemma generate_application_run (w : World) :
  365 < toordinal (clock w (clock_reads w)) <= PyDatetime.MAXORDINAL ->
  exists income loan_amount loan_term credit_history employment property_area dependents
         education existing_debt date,
    Dataset.sampled income loan_amount loan_term credit_history employment property_area
                    dependents education existing_debt
    /\ toordinal (clock w (clock_reads w)) - 365 <= toordinal date
       <= toordinal (clock w (clock_reads w))
    /\ GenerateData.generate_application w
       = (Returns (Dataset.row income loan_amount loan_term credit_history employment
                     property_area dependents education existing_debt date),
          after_application w).
Proof.
  intros Hclock.
  destruct (generate_application_samples w)
    as (income & la & term & ch & emp & area & dep & edu & debt & Hs & Hrun).
  pose proof Hs as (B1 & B2 & I3 & B4 & I5 & I6 & I7 & I8 & B9).
  rename debt into existing_debt.
  exists income, la, term, ch, emp, area, dep, edu, existing_debt.
  eexists. split; [exact Hs |].
  assert (Hhalf : existing_debt <= income) by (apply Z.le_trans with (income / 2);
    [lia | apply Z.div_le_upper_bound; lia]).
  rewrite Hrun.
  rewrite score_profile_run.
  - split; [| reflexivity]. cbn [toordinal after_profile clock clock_reads].
    pose proof (Z.mod_pos_bound (raw_draw (after_profile w)) (365 - 0 + 1)). lia.
  - lia.
  - unfold small_natural. lia.
  - unfold small_natural. lia.
  - simpl in I3. lia.
  - exact Hclock.
Qed.

Lemma sampled_request_valid (income loan_amount loan_term credit_history : Z)
    (employment property_area : string) (dependents : Z) (education : string)
    (existing_debt : Z) :
  Dataset.sampled income loan_amount loan_term credit_history employment property_area
                  dependents education existing_debt ->
  Main.valid_application
    (Dataset.request income loan_amount loan_term credit_history employment property_area
                     dependents education existing_debt) = true.
Proof.
  intros (B1 & B2 & I3 & B4 & I5 & I6 & I7 & I8 & B9).
  assert (Hhalf : income / 2 <= income) by (apply Z.div_le_upper_bound; lia).
  unfold Main.valid_application, Main.field_constraints, Main.enum_constraints, Dataset.request.
  cbn [Main.applicant_income Main.loan_amount Main.loan_term_months Main.credit_history_months
       Main.employment_status Main.property_area Main.dependents Main.education
       Main.existing_debt].
  change 0%float with (PyNum.to_float 0).
  rewrite !to_float_ltb, to_float_leb by (unfold small_natural; lia).
  repeat (apply andb_true_iff; split);
    try (apply Z.ltb_lt; lia); try (apply Z.leb_le; simpl in I3, I7; lia).
  - simpl in I5. repeat (destruct I5 as [<- | I5]; [reflexivity |]). contradiction.
  - simpl in I6. repeat (destruct I6 as [<- | I6]; [reflexivity |]). contradiction.
  - simpl in I8. repeat (destruct I8 as [<- | I8]; [reflexivity |]). contradiction.
Qed.

(** A valid request with integral amounts has a positive income and a term
    of 12 to 480 months. *)
Lemma integral_request_fields (income loan_amount loan_term credit_history : Z)
    (employment property_area : string) (dependents : Z) (education : string)
    (existing_debt : Z) :
  Dataset.integral income loan_amount existing_debt ->
  Main.valid_application
    (Dataset.request income loan_amount loan_term credit_history employment property_area
                     dependents education existing_debt) = true ->
  0 < income /\ 12 <= loan_term <= 480.
Proof.
  intros (Bi & Bl & Bd) Hvalid.
  destruct (valid_application_fields _ Hvalid) as [Hpos Hterm].
  cbn [Dataset.request Main.applicant_income Main.loan_term_months] in Hpos, Hterm.
  change 0%float with (PyNum.to_float 0) in Hpos.
  rewrite to_float_ltb in Hpos by (unfold small_natural; lia).
  apply Z.ltb_lt in Hpos. split; assumption.
Qed.

Lemma label_cases (s : Z) :
  let recommendation := Spec.recommendation s in
  (recommendation = "APPROVE" <-> Dataset.label recommendation = "APPROVED")
  /\ (recommendation = "REVIEW" <-> Dataset.label recommendation = "REVIEW")
  /\ (recommendation = "DECLINE" <-> Dataset.label recommendation = "DECLINED").
Proof.
  unfold Spec.recommendation.
  destruct (70 <=? s); [| destruct (50 <=? s)]; cbn;
    repeat split; intros; try reflexivity; discriminate.
Qed.

(** C6. Every row that [generate_application] produces carries the score and
    the category that [calculate_risk_score] gives to the request made of the
    row's own fields, which is a valid request, and the row's decision is
    the generator's word for the service's recommendation: APPROVED for
    APPROVE, REVIEW for REVIEW, DECLINED for DECLINE.  The same holds of the
    generator's scoring on every valid request whose income, loan and debt
    are integers below 2^53, sampled or not. *)
Theorem generator_agrees_with_service (w service : World) :
  365 < toordinal (clock w (clock_reads w)) <= PyDatetime.MAXORDINAL ->
  (exists row w' r service',
      GenerateData.generate_application w = (Returns row, w')
      /\ Main.valid_application (Dataset.request_of_row row) = true
      /\ Main.calculate_risk_score (Dataset.request_of_row row) service = (Returns r, service')
      /\ GenerateData.risk_score row = Main.risk_score r
      /\ GenerateData.risk_category row = Main.risk_category r
      /\ (Main.approval_recommendation r = "APPROVE" <-> GenerateData.decision row = "APPROVED")
      /\ (Main.approval_recommendation r = "REVIEW" <-> GenerateData.decision row = "REVIEW")
      /\ (Main.approval_recommendation r = "DECLINE" <-> GenerateData.decision row = "DECLINED")
      /\ GenerateData.debt_to_income_ratio row = Main.debt_to_income_ratio r
      /\ GenerateData.loan_to_income_ratio row = Main.loan_to_income_ratio r)
  /\ (forall income loan_amount loan_term credit_history employment property_area dependents
             education existing_debt,
        Dataset.integral income loan_amount existing_debt ->
        Main.valid_application
          (Dataset.request income loan_amount loan_term credit_history employment
                           property_area dependents education existing_debt) = true ->
        exists row w' r service',
          GenerateData.score_profile income loan_amount loan_term credit_history employment
            property_area dependents education existing_debt w = (Returns row, w')
          /\ Main.calculate_risk_score
               (Dataset.request income loan_amount loan_term credit_history employment
                                property_area dependents education existing_debt) service
             = (Returns r, service')
          /\ GenerateData.risk_score row = Main.risk_score r
          /\ GenerateData.risk_category row = Main.risk_category r
          /\ (Main.approval_recommendation r = "APPROVE"
              <-> GenerateData.decision row = "APPROVED")
          /\ (Main.approval_recommendation r = "REVIEW"
              <-> GenerateData.decision row = "REVIEW")
          /\ (Main.approval_recommendation r = "DECLINE"
              <-> GenerateData.decision row = "DECLINED")).
Proof.
  intros Hclock. split.
  - destruct (generate_application_run w Hclock)
      as (income & la & term & ch & emp & area & dep & edu & debt & date & Hs & _ & Hrun).
    pose proof (sampled_request_valid _ _ _ _ _ _ _ _ _ Hs) as Hvalid.
    do 4 eexists.
    split; [exact Hrun |].
    split; [exact Hvalid |].
    split; [apply calculate_risk_score_run; exact Hvalid |].
    cbn [Dataset.row Dataset.request_of_row GenerateData.risk_score GenerateData.risk_category
         GenerateData.decision GenerateData.debt_to_income_ratio
         GenerateData.loan_to_income_ratio GenerateData.applicant_income
         GenerateData.loan_amount GenerateData.loan_term_months
         GenerateData.credit_history_months GenerateData.employment_status
         GenerateData.property_area GenerateData.dependents GenerateData.education
         GenerateData.existing_debt
         Spec.assessment Main.risk_score Main.risk_category Main.approval_recommendation
         Main.debt_to_income_ratio Main.loan_to_income_ratio].
    split; [reflexivity |]. split; [reflexivity |].
    match goal with
    | |- context [Spec.recommendation ?s] => destruct (label_cases s) as (L1 & L2 & L3)
    end.
    repeat split; first [apply L1 | apply L2 | apply L3 | reflexivity].
  - intros income la term ch emp area dep edu debt Hint Hvalid.
    destruct (integral_request_fields _ _ _ _ _ _ _ _ _ Hint Hvalid) as [Hpos Hterm].
    destruct Hint as (Bi & Bl & Bd).
    do 4 eexists.
    split; [apply score_profile_run; unfold small_natural; solve [lia | exact Hclock] |].
    split; [apply calculate_risk_score_run; exact Hvalid |].
    cbn [Dataset.row GenerateData.risk_score GenerateData.risk_category GenerateData.decision
         Spec.assessment Main.risk_score Main.risk_category Main.approval_recommendation].
    split; [reflexivity |]. split; [reflexivity |].
    match goal with
    | |- context [Spec.recommendation ?s] => destruct (label_cases s) as (L1 & L2 & L3)
    end.
    repeat split; first [apply L1 | apply L2 | apply L3].
Qed.

Lemma generator_agrees_with_service_witness :
  365 < toordinal (clock Samples.world (clock_reads Samples.world)) <= PyDatetime.MAXORDINAL
  /\ exists row w' r service',
    GenerateData.generate_application Samples.world = (Returns row, w')
    /\ Main.valid_application (Dataset.request_of_row row) = true
    /\ Main.calculate_risk_score (Dataset.request_of_row row) Samples.other_world
       = (Returns r, service')
    /\ GenerateData.risk_score row = Main.risk_score r
    /\ GenerateData.risk_category row = Main.risk_category r
    /\ (Main.approval_recommendation r = "APPROVE" <-> GenerateData.decision row = "APPROVED")
    /\ (Main.approval_recommendation r = "REVIEW" <-> GenerateData.decision row = "REVIEW")
    /\ (Main.approval_recommendation r = "DECLINE" <-> GenerateData.decision row = "DECLINED")
    /\ GenerateData.debt_to_income_ratio row = Main.debt_to_income_ratio r
    /\ GenerateData.loan_to_income_ratio row = Main.loan_to_income_ratio r.
Proof.
  assert (H : 365 < toordinal (clock Samples.world (clock_reads Samples.world))
              <= PyDatetime.MAXORDINAL) by (vm_compute; split; [reflexivity | discriminate]).
  split; [exact H |].
  exact (proj1 (generator_agrees_with_service Samples.world Samples.other_world H)).
Defined.

(** *** Dates in print *)

Lemma compare_app_same_length (a a' b b' : string) :
  String.length a = String.length a' ->
  ((a ++ b) ?= (a' ++ b'))%string
  = match (a ?= a')%string with Eq => (b ?= b')%string | c => c end.
Proof.
  revert a'. induction a as [| c a IH]; intros [| c' a'] Hlen; try discriminate; simpl.
  - reflexivity.
  - destruct (Ascii.compare c c'); try reflexivity. apply IH. simpl in Hlen. lia.
Qed.

Lemma string_length_append (a b : string) :
  String.length (a ++ b) = (String.length a + String.length b)%nat.
Proof. induction a as [| c a IH]; simpl; [reflexivity | rewrite IH; reflexivity]. Qed.

Lemma zero_padded_length (width : nat) :
  forall n, String.length (PyStr.zero_padded width n) = width.
Proof.
  induction width as [| k IH]; intros n; simpl; [reflexivity |].
  rewrite string_length_append, IH. simpl. lia.
Qed.

Lemma digit_compare (x y : Z) :
  0 <= x <= 9 -> 0 <= y <= 9 -> Ascii.compare (PyStr.digit x) (PyStr.digit y) = (x ?= y).
Proof.
  intros Hx Hy.
  assert (Ex : x = 0 \/ x = 1 \/ x = 2 \/ x = 3 \/ x = 4 \/ x = 5 \/ x = 6 \/ x = 7
               \/ x = 8 \/ x = 9) by lia.
  assert (Ey : y = 0 \/ y = 1 \/ y = 2 \/ y = 3 \/ y = 4 \/ y = 5 \/ y = 6 \/ y = 7
               \/ y = 8 \/ y = 9) by lia.
  clear Hx Hy.
  repeat (destruct Ex as [-> | Ex]); try subst x;
    repeat (destruct Ey as [-> | Ey]); try subst y; reflexivity.
Qed.

Lemma zero_padded_compare (width : nat) :
  forall x y, 0 <= x < 10 ^ Z.of_nat width -> 0 <= y < 10 ^ Z.of_nat width ->
  (PyStr.zero_padded width x ?= PyStr.zero_padded width y)%string = (x ?= y).
Proof.
  induction width as [| k IH]; intros x y Hx Hy.
  - simpl in Hx, Hy. assert (x = 0) by lia. assert (y = 0) by lia. subst. reflexivity.
  - rewrite Nat2Z.inj_succ, Z.pow_succ_r in Hx, Hy by lia.
    cbn [PyStr.zero_padded].
    rewrite compare_app_same_length by (rewrite !zero_padded_length; reflexivity).
    rewrite IH by (split; [apply Z.div_pos; lia | apply Z.div_lt_upper_bound; lia]).
    cbn [String.compare].
    pose proof (Z.div_mod x 10 ltac:(lia)) as Dx.
    pose proof (Z.div_mod y 10 ltac:(lia)) as Dy.
    pose proof (Z.mod_pos_bound x 10 ltac:(lia)).
    pose proof (Z.mod_pos_bound y 10 ltac:(lia)).
    rewrite digit_compare by lia.
    destruct (Z.compare_spec (x / 10) (y / 10)) as [E | L | G].
    + destruct (Z.compare_spec (x mod 10) (y mod 10)); symmetry;
        [apply Z.compare_eq_iff | apply Z.compare_lt_iff | apply Z.compare_gt_iff]; lia.
    + symmetry. apply Z.compare_lt_iff. lia.
    + symmetry. apply Z.compare_gt_iff. lia.
Qed.

(** *** The calendar *)

Lemma div_eucl_pair (a b : Z) : Z.div_eucl a b = (a / b, a mod b).
Proof. unfold Z.div, Z.modulo. destruct (Z.div_eucl a b). reflexivity. Qed.

(** The calendar repeats every 146097 days, 400 years later. *)
Lemma ord2ymd_cycle (n : Z) :
  PyDatetime.ord2ymd n
  = let '(y, m, d) := PyDatetime.ord2ymd ((n - 1) mod 146097 + 1) in
    (y + 400 * ((n - 1) / 146097), m, d).
Proof.
  unfold PyDatetime.ord2ymd. rewrite !div_eucl_pair. cbv beta iota zeta.
  replace ((n - 1) mod 146097 + 1 - 1) with ((n - 1) mod 146097) by lia.
  rewrite Z.mod_mod by lia.
  rewrite (Z.div_small ((n - 1) mod 146097) 146097) by (apply Z.mod_pos_bound; lia).
  generalize ((n - 1) mod 146097). generalize ((n - 1) / 146097). intros q r.
  repeat match goal with
         | |- context [if ?c then _ else _] => destruct c
         end; f_equal; try f_equal; lia.
Qed.

Lemma days_ascend_spec (count : nat) :
  forall previous day,
    days_ascend previous day count = true ->
    forall r, day <= r < day + Z.of_nat count ->
              cycle_day_ok r
              /\ (if r =? day then previous else date_key (r - 1)) < date_key r.
Proof.
  induction count as [| k IH]; intros previous day H r Hr.
  - simpl in Hr. lia.
  - cbn [days_ascend] in H. unfold cycle_day_ok, date_key.
    destruct (Z.eqb_spec r day) as [-> | NE].
    + destruct (PyDatetime.ord2ymd day) as [[y m] d].
      repeat (apply andb_true_iff in H; destruct H as [H ?]).
      repeat match goal with
             | H : (_ <=? _) = true |- _ => apply Z.leb_le in H
             | H : (_ <? _) = true |- _ => apply Z.ltb_lt in H
             end.
      lia.
    + assert (Hrest : days_ascend (date_key day) (day + 1) k = true).
      { unfold date_key. destruct (PyDatetime.ord2ymd day) as [[y m] d].
        repeat (apply andb_true_iff in H; destruct H as [H ?]). assumption. }
      destruct (IH _ _ Hrest r ltac:(lia)) as [Hok Hlt].
      split; [exact Hok |].
      destruct (Z.eqb_spec r (day + 1)) as [-> | NE'].
      * replace (day + 1 - 1) with day by lia. exact Hlt.
      * exact Hlt.
Qed.

Lemma cycle_days (r : Z) :
  1 <= r <= 146097 ->
  cycle_day_ok r /\ (r <> 1 -> date_key (r - 1) < date_key r).
Proof.
  intros Hr.
  assert (H : days_ascend 0 1 (Z.to_nat 146097) = true) by (vm_cast_no_check (eq_refl true)).
  destruct (days_ascend_spec _ _ _ H r ltac:(lia)) as [Hok Hlt].
  split; [exact Hok |]. intros NE.
  destruct (Z.eqb_spec r 1); [contradiction | exact Hlt].
Qed.

Lemma date_key_cycle (n : Z) :
  date_key n = date_key ((n - 1) mod 146097 + 1) + 4000000 * ((n - 1) / 146097).
Proof.
  unfold date_key. rewrite (ord2ymd_cycle n).
  destruct (PyDatetime.ord2ymd ((n - 1) mod 146097 + 1)) as [[y m] d]. lia.
Qed.

Lemma date_key_step (n : Z) : date_key n < date_key (n + 1).
Proof.
  rewrite (date_key_cycle n), (date_key_cycle (n + 1)).
  pose proof (Z.mod_pos_bound (n - 1) 146097 ltac:(lia)) as Hr.
  pose proof (Z.div_mod (n - 1) 146097 ltac:(lia)) as Hn.
  set (q := (n - 1) / 146097) in *. set (r := (n - 1) mod 146097) in *.
  destruct (Z.eq_dec r 146096) as [E | NE].
  - assert (Hq : (n + 1 - 1) / 146097 = q + 1)
      by (symmetry; apply (Z.div_unique _ _ _ 0); lia).
    assert (Hm : (n + 1 - 1) mod 146097 = 0)
      by (symmetry; apply (Z.mod_unique _ _ (q + 1)); lia).
    rewrite Hq, Hm, E.
    change (date_key (146096 + 1)) with 4001231. change (date_key (0 + 1)) with 10101. lia.
  - assert (Hq : (n + 1 - 1) / 146097 = q)
      by (symmetry; apply (Z.div_unique _ _ _ (r + 1)); lia).
    assert (Hm : (n + 1 - 1) mod 146097 = r + 1)
      by (symmetry; apply (Z.mod_unique _ _ q); lia).
    rewrite Hq, Hm.
    destruct (cycle_days (r + 2) ltac:(lia)) as [_ Hlt].
    specialize (Hlt ltac:(lia)). replace (r + 2 - 1) with (r + 1) in Hlt by lia.
    replace (r + 1 + 1) with (r + 2) by lia. lia.
Qed.

Lemma date_key_increasing (a b : Z) : a < b -> date_key a < date_key b.
Proof.
  intros Hab. replace b with (a + 1 + (b - a - 1)) by lia.
  assert (Hk : 0 <= b - a - 1) by lia. revert Hk. generalize (b - a - 1).
  apply natlike_ind.
  - rewrite Z.add_0_r. apply date_key_step.
  - intros k Hk IH. replace (a + 1 + Z.succ k) with (a + 1 + k + 1) by lia.
    pose proof (date_key_step (a + 1 + k)). lia.
Qed.

Lemma date_key_order (a b : Z) : a <= b <-> date_key a <= date_key b.
Proof.
  split; intros H.
  - destruct (Z.eq_dec a b) as [-> | NE]; [lia |].
    pose proof (date_key_increasing a b ltac:(lia)). lia.
  - destruct (Z_le_gt_dec a b) as [L | G]; [exact L |].
    pose proof (date_key_increasing b a ltac:(lia)). lia.
Qed.

(** From 1000-01-01 to 9999-12-31 the year has four digits, the month and
    the day two. *)
Lemma four_digit_years (n : Z) :
  364878 <= n <= PyDatetime.MAXORDINAL ->
  let '(y, m, d) := PyDatetime.ord2ymd n in
  1000 <= y <= 9999 /\ 1 <= m <= 12 /\ 1 <= d <= 31.
Proof.
  unfold PyDatetime.MAXORDINAL. intros Hn.
  assert (Hlow : date_key 364878 <= date_key n) by (apply (proj1 (date_key_order _ _)); lia).
  assert (Hhigh : date_key n <= date_key 3652059) by (apply (proj1 (date_key_order _ _)); lia).
  change (date_key 364878) with 10000101 in Hlow.
  change (date_key 3652059) with 99991231 in Hhigh.
  unfold date_key in Hlow, Hhigh. rewrite (ord2ymd_cycle n) in *.
  pose proof (Z.mod_pos_bound (n - 1) 146097 ltac:(lia)) as Hr.
  destruct (cycle_days ((n - 1) mod 146097 + 1) ltac:(lia)) as [Hok _].
  unfold cycle_day_ok in Hok.
  destruct (PyDatetime.ord2ymd ((n - 1) mod 146097 + 1)) as [[y m] d].
  lia.
Qed.

Lemma strftime_ymd (d : datetime) :
  PyDatetime.strftime d "%Y-%m-%d"
  = (PyStr.zero_padded 4 (PyDatetime.year d)
     ++ String "-" (PyStr.zero_padded 2 (PyDatetime.month d)
     ++ String "-" (PyStr.zero_padded 2 (PyDatetime.day d) ++ "")))%string.
Proof. reflexivity. Qed.

Lemma compare_cons_same (c : ascii) (a b : string) :
  (String c a ?= String c b)%string = (a ?= b)%string.
Proof.
  simpl. unfold Ascii.compare. rewrite N.compare_refl. reflexivity.
Qed.

(** Between 1000-01-01 and 9999-12-31 the printed dates compare as the dates
    themselves. *)
Lemma date_string_compare (d1 d2 : datetime) :
  four_digit_date d1 -> four_digit_date d2 ->
  (PyDatetime.strftime d1 "%Y-%m-%d" ?= PyDatetime.strftime d2 "%Y-%m-%d")%string
  = (toordinal d1 ?= toordinal d2).
Proof.
  intros H1 H2. rewrite !strftime_ymd.
  unfold PyDatetime.year, PyDatetime.month, PyDatetime.day.
  pose proof (four_digit_years _ H1) as R1. pose proof (four_digit_years _ H2) as R2.
  pose proof (date_key_order (toordinal d1) (toordinal d2)) as O12.
  pose proof (date_key_order (toordinal d2) (toordinal d1)) as O21.
  unfold date_key in O12, O21.
  destruct (PyDatetime.ord2ymd (toordinal d1)) as [[y1 m1] a1].
  destruct (PyDatetime.ord2ymd (toordinal d2)) as [[y2 m2] a2].
  cbn [fst snd].
  rewrite compare_app_same_length by (rewrite !zero_padded_length; reflexivity).
  rewrite compare_cons_same.
  rewrite compare_app_same_length by (rewrite !zero_padded_length; reflexivity).
  rewrite compare_cons_same.
  rewrite compare_app_same_length by (rewrite !zero_padded_length; reflexivity).
  rewrite !zero_padded_compare by (simpl; lia).
  cbn [String.compare].
  destruct (Z.compare_spec y1 y2) as [Ey | Ly | Gy];
    [destruct (Z.compare_spec m1 m2) as [Em | Lm | Gm];
       [destruct (Z.compare_spec a1 a2) as [Ea | La | Ga] | | ] | | ];
    symmetry;
    first [ apply Z.compare_eq_iff; lia | apply Z.compare_lt_iff; lia
          | apply Z.compare_gt_iff; lia ].
Qed.

Lemma date_string_order (d1 d2 : datetime) :
  four_digit_date d1 -> four_digit_date d2 ->
  (PyDatetime.strftime d1 "%Y-%m-%d" <=? PyDatetime.strftime d2 "%Y-%m-%d")%string = true
  <-> toordinal d1 <= toordinal d2.
Proof.
  intros H1 H2. unfold String.leb. rewrite (date_string_compare d1 d2 H1 H2).
  destruct (Z.compare_spec (toordinal d1) (toordinal d2)); split; intros; try lia;
    try reflexivity; discriminate.
Qed.

Lemma Forall_exists_Forall2 {A B} (R : A -> B -> Prop) (l : list A) :
  Forall (fun a => exists b, R a b) l -> exists l', Forall2 R l l'.
Proof.
  induction 1 as [| a l [b Hab] _ [l' IH]].
  - exists []. constructor.
  - exists (b :: l'). constructor; assumption.
Qed.

Lemma Forall2_nth_error_right {A B} (R : A -> B -> Prop) (l : list A) (l' : list B) :
  Forall2 R l l' ->
  forall i b, nth_error l' i = Some b -> exists a, nth_error l i = Some a /\ R a b.
Proof.
  induction 1 as [| a b0 l l' Hab _ IH]; intros i b Hb.
  - destruct i; discriminate.
  - destruct i as [| i]; simpl in Hb.
    + injection Hb as <-. exists a. split; [reflexivity | exact Hab].
    + apply IH. exact Hb.
Qed.

(** *** Sorting by a string key *)

Section SortedByKey.
Context {A : Type} (key : A -> string).

Lemma string_ltb_leb (s t : string) : (s <? t)%string = true -> (s <=? t)%string = true.
Proof. unfold String.ltb, String.leb. destruct (s ?= t)%string; congruence. Qed.

Lemma string_not_ltb_leb (s t : string) : (t <? s)%string = false -> (s <=? t)%string = true.
Proof.
  unfold String.ltb, String.leb. rewrite (String.compare_antisym s t).
  destruct (t ?= s)%string; simpl; congruence.
Qed.

Lemma insert_by_key_head (x a : A) (l : list A) :
  key_le key a x -> HdRel (key_le key) a l ->
  HdRel (key_le key) a (PyList.insert_by_key key x l).
Proof.
  intros Hax Hal. destruct l as [| y rest]; simpl.
  - constructor. exact Hax.
  - destruct (key y <? key x)%string; constructor; [| exact Hax].
    inversion Hal. assumption.
Qed.

Lemma insert_by_key_sorted (x : A) (l : list A) :
  Sorted (key_le key) l -> Sorted (key_le key) (PyList.insert_by_key key x l).
Proof.
  induction l as [| y rest IH]; intros Hs; simpl.
  - repeat constructor.
  - apply Sorted_inv in Hs. destruct Hs as [Hrest Hhd].
    destruct (key y <? key x)%string eqn:E.
    + constructor; [apply IH; exact Hrest |].
      apply insert_by_key_head; [apply string_ltb_leb; exact E | exact Hhd].
    + constructor; [constructor; assumption |].
      constructor. apply string_not_ltb_leb. exact E.
Qed.

Lemma sort_by_key_sorted (l : list A) : Sorted (key_le key) (PyList.sort_by_key key l).
Proof.
  induction l as [| x rest IH]; simpl; [constructor | apply insert_by_key_sorted; exact IH].
Qed.

Lemma insert_by_key_perm (x : A) (l : list A) :
  Permutation (x :: l) (PyList.insert_by_key key x l).
Proof.
  induction l as [| y rest IH]; simpl; [reflexivity |].
  destruct (key y <? key x)%string; [| reflexivity].
  rewrite perm_swap. constructor. exact IH.
Qed.

Lemma sort_by_key_perm (l : list A) : Permutation l (PyList.sort_by_key key l).
Proof.
  induction l as [| x rest IH]; simpl; [constructor |].
  rewrite <- insert_by_key_perm. constructor. exact IH.
Qed.

Lemma Sorted_adjacent (R : A -> A -> Prop) (l : list A) :
  Sorted R l ->
  forall i a b, nth_error l i = Some a -> nth_error l (S i) = Some b -> R a b.
Proof.
  induction 1 as [| x l Hs IH Hhd]; intros i a b Ha Hb.
  - destruct i; discriminate.
  - destruct i as [| i].
    + simpl in Ha, Hb. injection Ha as <-. destruct l as [| y rest]; [discriminate |].
      simpl in Hb. injection Hb as <-. inversion Hhd. assumption.
    + simpl in Ha. exact (IH i a b Ha Hb).
Qed.

End SortedByKey.

(** *** The loop and the dataset *)

Lemma append_applications_run (count : nat) :
  forall (applications : list GenerateData.Row) (w0 w : World),
    Dataset.clock_allows_a_year_back w ->
    clock w = clock w0 ->
    exists new w',
      GenerateData.append_applications count applications w
      = (Returns (applications ++ new), w')
      /\ List.length new = count
      /\ Forall (fun row => exists date, dated_by_clock w0 row date) new.
Proof.
  induction count as [| n IH]; intros applications w0 w Hclock Hsame; simpl.
  - exists [], w. rewrite app_nil_r. repeat split. constructor.
  - destruct (generate_application_run w (Hclock _))
      as (income & la & term & ch & emp & area & dep & edu & debt & date & _ & Hdate & Hrun).
    step Hrun.
    destruct (IH (applications ++ [Dataset.row income la term ch emp area dep edu debt date])
                 w0 (after_application w)) as (new & w' & Hrest & Hlen & Hdated).
    { intros i. apply Hclock. }
    { exact Hsame. }
    rewrite Hrest. rewrite <- app_assoc. eexists. eexists. split; [reflexivity |].
    split; [simpl; rewrite Hlen; reflexivity |].
    constructor; [| exact Hdated].
    exists date. split; [reflexivity |].
    exists (clock_reads w). rewrite <- Hsame. exact Hdate.
Qed.

(** C8. Whatever the count, when the clock reads dates from 1001-01-01 on,
    so that every date of the year before a reading has a four-digit year,
    [generate_dataset] returns the rows that its loop generated, rearranged:
    one row per application asked for, each the print of a date at most 365
    days before a reading of the clock, and every row is no later than the
    row that follows it, both by its [application_date] compared as a string
    and by the date that it prints.  On the dates from 1000-01-01 to
    9999-12-31 the two orders are the same: the print of one date is at most
    the print of another, as strings, exactly when the date is no later. *)
Theorem dataset_sorted_by_date (num_applications : Z) (w : World) :
  clock_of_four_digit_years w ->
  exists generated rows dates w',
    GenerateData.append_applications (Z.to_nat num_applications) [] w
    = (Returns generated, w')
    /\ GenerateData.generate_dataset num_applications w = (Returns rows, w')
    /\ Permutation generated rows
    /\ List.length rows = Z.to_nat num_applications
    /\ Forall2 (fun row date => dated_by_clock w row date /\ four_digit_date date) rows dates
    /\ (forall i earlier later,
          nth_error rows i = Some earlier ->
          nth_error rows (S i) = Some later ->
          (GenerateData.application_date earlier <=? GenerateData.application_date later)%string
          = true)
    /\ (forall i earlier later,
          nth_error dates i = Some earlier ->
          nth_error dates (S i) = Some later ->
          toordinal earlier <= toordinal later)
    /\ (forall d1 d2,
          four_digit_date d1 -> four_digit_date d2 ->
          (PyDatetime.strftime d1 "%Y-%m-%d" <=? PyDatetime.strftime d2 "%Y-%m-%d")%string
          = true
          <-> toordinal d1 <= toordinal d2).
Proof.
  intros Hlate.
  assert (Hclock : Dataset.clock_allows_a_year_back w).
  { intros i. specialize (Hlate i). lia. }
  unfold GenerateData.generate_dataset.
  destruct (append_applications_run (Z.to_nat num_applications) [] w w Hclock eq_refl)
    as (new & w' & Hrun & Hlen & Hdated).
  cbn [app] in Hrun.
  set (rows := PyList.sort_by_key GenerateData.application_date new).
  pose proof (sort_by_key_perm GenerateData.application_date new) as Hperm. fold rows in Hperm.
  pose proof (sort_by_key_sorted GenerateData.application_date new) as Hsorted.
  fold rows in Hsorted.
  pose proof (Sorted_adjacent _ _ Hsorted) as Hadjacent.
  assert (Hrows : Forall (fun row => exists date,
                            dated_by_clock w row date /\ four_digit_date date) rows).
  { apply (Permutation_Forall Hperm). revert Hdated. apply Forall_impl.
    intros row (date & Hprint & i & Hrange). exists date.
    split; [split; [exact Hprint | exists i; exact Hrange] |].
    unfold four_digit_date. specialize (Hlate i). lia. }
  destruct (Forall_exists_Forall2 _ _ Hrows) as [dates Hdates].
  exists new, rows, dates, w'.
  split; [exact Hrun |].
  split; [step Hrun; reflexivity |].
  split; [exact Hperm |].
  split; [rewrite <- (Permutation_length Hperm); exact Hlen |].
  split; [exact Hdates |].
  split; [exact Hadjacent |].
  split.
  - intros i earlier later Hearlier Hlater.
    destruct (Forall2_nth_error_right _ _ _ Hdates _ _ Hearlier) as (r1 & Hr1 & [P1 _] & F1).
    destruct (Forall2_nth_error_right _ _ _ Hdates _ _ Hlater) as (r2 & Hr2 & [P2 _] & F2).
    apply (date_string_order earlier later F1 F2).
    rewrite <- P1, <- P2. exact (Hadjacent i r1 r2 Hr1 Hr2).
  - intros d1 d2 F1 F2. apply date_string_order; assumption.
Qed.

Lemma dataset_sorted_by_date_witness :
  clock_of_four_digit_years Samples.world
  /\ exists generated rows dates w',
    GenerateData.append_applications 4 [] Samples.world = (Returns generated, w')
    /\ GenerateData.generate_dataset 4 Samples.world = (Returns rows, w')
    /\ Permutation generated rows
    /\ List.length rows = 4%nat
    /\ Forall2 (fun row date => dated_by_clock Samples.world row date /\ four_digit_date date)
               rows dates
    /\ (forall i earlier later,
          nth_error rows i = Some earlier ->
          nth_error rows (S i) = Some later ->
          (GenerateData.application_date earlier <=? GenerateData.application_date later)%string
          = true)
    /\ (forall i earlier later,
          nth_error dates i = Some earlier ->
          nth_error dates (S i) = Some later ->
          toordinal earlier <= toordinal later)
    /\ (forall d1 d2,
          four_digit_date d1 -> four_digit_date d2 ->
          (PyDatetime.strftime d1 "%Y-%m-%d" <=? PyDatetime.strftime d2 "%Y-%m-%d")%string
          = true
          <-> toordinal d1 <= toordinal d2).
Proof.
  assert (H : clock_of_four_digit_years Samples.world).
  { intros i. unfold PyDatetime.MAXORDINAL. simpl. lia. }
  split; [exact H |].
  exact (dataset_sorted_by_date 4 Samples.world H).
Defined.

(** * Further properties of the two programs *)

(** ** When the scoring fails *)

Lemma binary_round_small (s : bool) (p : positive) :
  below_2_53 (Z.pos p) ->
  binary_round prec emax s p 0 = S754_finite s (mantissa53 p) (exponent53 p).
Proof.
  intros H. destruct (mantissa53_spec p H) as (Hd & _ & He).
  pose proof (below_2_53_digits p H) as Hdp.
  unfold binary_round.
  assert (Hfexp : fexp prec emax (Z.pos (digits2_pos p) + 0) = exponent53 p).
  { unfold fexp, emin, prec, emax, exponent53. lia. }
  rewrite Hfexp. unfold shl_align. rewrite Z.sub_0_r.
  unfold mantissa53 in Hd |- *.
  destruct (exponent53 p) as [| k | k] eqn:E.
  - apply binary_round_aux_canonical; [exact Hd | lia].
  - lia.
  - apply binary_round_aux_canonical; [exact Hd | lia].
Qed.

(** A nonzero int below 2^53 in magnitude is a finite nonzero float. *)
Lemma usable_nonzero (n : Z) :
  n <> 0 -> Z.abs n < 9007199254740992 -> usable_divisor n = true.
Proof.
  intros Hn Hsmall. destruct n as [| p | p]; [contradiction | apply usable_small; lia |].
  assert (H : below_2_53 (Z.pos p)) by (unfold below_2_53; lia).
  assert (E : Prim2SF (PyNum.to_float (Z.neg p))
              = S754_finite true (mantissa53 p) (exponent53 p)).
  { unfold PyNum.to_float. cbn [binary_normalize]. rewrite (binary_round_small true p H).
    apply Prim2SF_SF2Prim. destruct (mantissa53_spec p H) as (Hd & _ & He).
    cbn [valid_binary]. unfold bounded, canonical_mantissa, fexp, emin, prec, emax.
    rewrite Hd. apply andb_true_iff. split; [apply Z.eqb_eq | apply Z.leb_le]; lia. }
  unfold usable_divisor, PrimFloat.is_infinity.
  rewrite !eqb_spec, abs_spec, E.
  change (Prim2SF infinity) with (S754_infinity false).
  change (Prim2SF 0) with (S754_zero false). reflexivity.
Qed.

Lemma usable_zero : usable_divisor 0 = false.
Proof. reflexivity. Qed.

(** The four outcomes of [calculate_risk_score], in the order in which the
    source meets them. *)
Lemma calculate_risk_score_cases (a : Main.LoanApplication) (w : World) :
  Main.calculate_risk_score a w
  = if (Main.applicant_income a =? 0)%float then (Raises ZeroDivisionError, w)
    else if PrimFloat.is_infinity (PyNum.to_float (Main.loan_term_months a))
         then (Raises OverflowError, w)
    else if (PyNum.to_float (Main.loan_term_months a) =? 0)%float
         then (Raises ZeroDivisionError, w)
    else (Returns (Spec.assessment a (Spec.debt_to_income a) (Spec.loan_to_income a)
                     (Spec.payment_to_income a)
                     (clock w (clock_reads w)) (clock w (S (clock_reads w)))),
          tick_clock (tick_clock w)).
Proof.
  unfold Main.calculate_risk_score.
  destruct (Main.applicant_income a =? 0)%float eqn:Hincome.
  - unfold bind at 1. unfold PyNum.float_truediv at 1. rewrite Hincome. reflexivity.
  - rewrite (bind_returns _ _ w w _ (float_truediv_run _ _ w Hincome)).
    rewrite (bind_returns _ _ w w _ (float_truediv_run _ _ w Hincome)).
    destruct (PrimFloat.is_infinity (PyNum.to_float (Main.loan_term_months a))) eqn:Hinf.
    + unfold bind at 1. unfold PyNum.float_truediv_int, PyNum.float_of_int.
      rewrite Hinf. reflexivity.
    + destruct (PyNum.to_float (Main.loan_term_months a) =? 0)%float eqn:Hzero.
      * unfold bind at 1. unfold PyNum.float_truediv_int, PyNum.float_of_int.
        rewrite Hinf. unfold bind at 1. unfold ret at 1.
        unfold PyNum.float_truediv. rewrite Hzero. reflexivity.
      * assert (Husable : usable_divisor (Main.loan_term_months a) = true)
          by (unfold usable_divisor; rewrite Hinf, Hzero; reflexivity).
        rewrite (bind_returns _ _ w w _ (float_truediv_int_run _ _ w Husable)).
        rewrite (bind_returns _ _ w w _ (float_truediv_run _ _ w Hincome)).
        apply score_and_explain_run.
Qed.

(** X1. On a request whose term is an int below 2^53 in magnitude, validated
    or not, [calculate_risk_score] returns exactly when the income and the
    term are not zero; otherwise it raises [ZeroDivisionError] before it reads
    the clock, leaving the world as it was. *)
Theorem scoring_fails_on_zero_only (a : Main.LoanApplication) (w : World) :
  Z.abs (Main.loan_term_months a) < 9007199254740992 ->
  ((Main.applicant_income a =? 0)%float = false /\ Main.loan_term_months a <> 0 ->
   exists r, Main.calculate_risk_score a w = (Returns r, tick_clock (tick_clock w)))
  /\ ((Main.applicant_income a =? 0)%float = true \/ Main.loan_term_months a = 0 ->
      Main.calculate_risk_score a w = (Raises ZeroDivisionError, w)).
Proof.
  intros Hsmall. rewrite calculate_risk_score_cases. split.
  - intros [Hincome Hterm]. rewrite Hincome.
    pose proof (usable_nonzero _ Hterm Hsmall) as Husable.
    unfold usable_divisor in Husable. apply andb_true_iff in Husable.
    destruct Husable as [Hinf Hzero].
    apply negb_true_iff in Hinf. apply negb_true_iff in Hzero.
    rewrite Hinf, Hzero. eexists. reflexivity.
  - intros [Hincome | Hterm].
    + rewrite Hincome. reflexivity.
    + destruct (Main.applicant_income a =? 0)%float; [reflexivity |].
      rewrite Hterm. reflexivity.
Qed.

Lemma scoring_fails_on_zero_only_witness :
  Z.abs (Main.loan_term_months Cases.no_income) < 9007199254740992
  /\ Main.calculate_risk_score Cases.no_income Samples.world
     = (Raises ZeroDivisionError, Samples.world).
Proof.
  assert (H : Z.abs (Main.loan_term_months Cases.no_income) < 9007199254740992)
    by reflexivity.
  split; [exact H |].
  apply (proj2 (scoring_fails_on_zero_only Cases.no_income Samples.world H)).
  left. reflexivity.
Defined.

(** ** The handler *)

(** X2. Whatever the three strings of the request, when its numbers satisfy
    the [Field] constraints the handler returns the assessment of the
    scoring, with a score from 0 to 100: it raises no [HTTPException]. *)
Theorem handler_returns_after_validation (str : exn -> string)
    (a : Main.LoanApplication) (w : World) :
  Main.field_constraints a = true ->
  exists r w', Service.score_application str a w = (inr r, w')
               /\ Main.calculate_risk_score a w = (Returns r, w')
               /\ 0 <= Main.risk_score r <= 100.
Proof.
  intros Hfields.
  assert (Hincome : (Main.applicant_income a >? 0)%float = true
                    /\ 12 <= Main.loan_term_months a <= 480).
  { unfold Main.field_constraints in Hfields.
    repeat (apply andb_true_iff in Hfields; destruct Hfields as [Hfields ?]).
    split; [assumption | lia]. }
  destruct Hincome as [Hincome Hterm].
  apply float_positive_nonzero in Hincome.
  pose proof (loan_term_usable _ Hterm) as Husable.
  unfold usable_divisor in Husable. apply andb_true_iff in Husable.
  destruct Husable as [Hinf Hzero].
  apply negb_true_iff in Hinf. apply negb_true_iff in Hzero.
  unfold Service.score_application. rewrite calculate_risk_score_cases.
  rewrite Hincome, Hinf, Hzero. do 2 eexists. split; [reflexivity |].
  split; [reflexivity |]. apply clamp_bounds.
Qed.

Lemma handler_returns_after_validation_witness :
  Main.field_constraints Cases.unlisted = true
  /\ Main.enum_constraints Cases.unlisted = false
  /\ exists r w',
       Service.score_application (fun _ => "") Cases.unlisted Samples.world = (inr r, w')
       /\ Main.calculate_risk_score Cases.unlisted Samples.world = (Returns r, w')
       /\ 0 <= Main.risk_score r <= 100.
Proof.
  split; [reflexivity |]. split; [reflexivity |].
  exact (handler_returns_after_validation (fun _ => "") Cases.unlisted Samples.world eq_refl).
Defined.

(** X3. Called on a request whose income is zero, which only a caller that
    skips validation can pass, the handler lets no [ZeroDivisionError]
    through: it raises an [HTTPException] with status 500 and the detail
    "Scoring failed: " followed by the message of the error, and the clock
    has not been read. *)
Theorem handler_reports_zero_income (str : exn -> string)
    (a : Main.LoanApplication) (w : World) :
  (Main.applicant_income a =? 0)%float = true ->
  Service.score_application str a w
  = (inl (Service.mk_HTTPException 500 ("Scoring failed: " ++ str ZeroDivisionError)), w).
Proof.
  intros Hincome. unfold Service.score_application.
  rewrite calculate_risk_score_cases, Hincome. reflexivity.
Qed.

Lemma handler_reports_zero_income_witness :
  (Main.applicant_income Cases.no_income =? 0)%float = true
  /\ Service.score_application (fun _ => "float division by zero") Cases.no_income
       Samples.world
     = (inl (Service.mk_HTTPException 500 "Scoring failed: float division by zero"),
        Samples.world).
Proof.
  split; [reflexivity |].
  exact (handler_reports_zero_income (fun _ => "float division by zero") Cases.no_income
           Samples.world eq_refl).
Defined.

(** ** Strings that the scoring does not know *)

Lemma assessment_by_strings (a b : Main.LoanApplication) (now later : datetime) :
  Main.applicant_income a = Main.applicant_income b ->
  Main.loan_amount a = Main.loan_amount b ->
  Main.loan_term_months a = Main.loan_term_months b ->
  Main.credit_history_months a = Main.credit_history_months b ->
  Main.dependents a = Main.dependents b ->
  Main.existing_debt a = Main.existing_debt b ->
  (Main.employment_status a =? "employed")%string
  = (Main.employment_status b =? "employed")%string ->
  (Main.employment_status a =? "unemployed")%string
  = (Main.employment_status b =? "unemployed")%string ->
  (Main.education a =? "graduate")%string = (Main.education b =? "graduate")%string ->
  (Main.property_area a =? "urban")%string = (Main.property_area b =? "urban")%string ->
  (Main.property_area a =? "rural")%string = (Main.property_area b =? "rural")%string ->
  Spec.assessment a (Spec.debt_to_income a) (Spec.loan_to_income a) (Spec.payment_to_income a)
                  now later
  = Spec.assessment b (Spec.debt_to_income b) (Spec.loan_to_income b)
                    (Spec.payment_to_income b) now later.
Proof.
  intros Hi Hl Ht Hc Hd He E1 E2 E3 E4 E5.
  unfold Spec.assessment, Spec.raw_score, Spec.positive_rules, Spec.negative_rules,
    Spec.negative_rules_but_last, Spec.payment_rule,
    Spec.employment_points, Spec.education_points, Spec.property_area_points,
    Spec.debt_to_income, Spec.loan_to_income, Spec.payment_to_income, Spec.monthly_payment.
  rewrite Hi, Hl, Ht, Hc, Hd, He, E1, E2, E3, E4, E5. reflexivity.
Qed.

Lemma same_outcome_by_strings (a b : Main.LoanApplication) (w : World) :
  Main.applicant_income a = Main.applicant_income b ->
  Main.loan_amount a = Main.loan_amount b ->
  Main.loan_term_months a = Main.loan_term_months b ->
  Main.credit_history_months a = Main.credit_history_months b ->
  Main.dependents a = Main.dependents b ->
  Main.existing_debt a = Main.existing_debt b ->
  (Main.employment_status a =? "employed")%string
  = (Main.employment_status b =? "employed")%string ->
  (Main.employment_status a =? "unemployed")%string
  = (Main.employment_status b =? "unemployed")%string ->
  (Main.education a =? "graduate")%string = (Main.education b =? "graduate")%string ->
  (Main.property_area a =? "urban")%string = (Main.property_area b =? "urban")%string ->
  (Main.property_area a =? "rural")%string = (Main.property_area b =? "rural")%string ->
  Main.calculate_risk_score a w = Main.calculate_risk_score b w.
Proof.
  intros Hi Hl Ht Hc Hd He E1 E2 E3 E4 E5.
  rewrite !calculate_risk_score_cases.
  rewrite (assessment_by_strings a b _ _ Hi Hl Ht Hc Hd He E1 E2 E3 E4 E5).
  rewrite Hi, Ht. reflexivity.
Qed.

Lemma string_neq_eqb (s t : string) : s <> t -> (s =? t)%string = false.
Proof. intros H. apply String.eqb_neq. exact H. Qed.

(** X4. The scoring rejects no string: an employment status other than
    "employed" and "unemployed" is treated as "self_employed", a property
    area other than "urban" and "rural" as "suburban", an education other
    than "graduate" as "not_graduate".  The whole outcome is the same. *)
Theorem unlisted_strings_are_neutral (a : Main.LoanApplication)
    (status area level : string) (w : World) :
  status <> "employed" -> status <> "unemployed" ->
  area <> "urban" -> area <> "rural" ->
  level <> "graduate" ->
  Main.calculate_risk_score (Edit.with_employment_status a status) w
  = Main.calculate_risk_score (Edit.with_employment_status a "self_employed") w
  /\ Main.calculate_risk_score (Edit.with_property_area a area) w
     = Main.calculate_risk_score (Edit.with_property_area a "suburban") w
  /\ Main.calculate_risk_score (Edit.with_education a level) w
     = Main.calculate_risk_score (Edit.with_education a "not_graduate") w.
Proof.
  intros S1 S2 A1 A2 L1.
  repeat split; apply same_outcome_by_strings; cbn; try reflexivity;
    rewrite ?(string_neq_eqb _ _ S1), ?(string_neq_eqb _ _ S2), ?(string_neq_eqb _ _ A1),
      ?(string_neq_eqb _ _ A2), ?(string_neq_eqb _ _ L1); reflexivity.
Qed.

Lemma unlisted_strings_are_neutral_witness :
  Main.calculate_risk_score (Edit.with_employment_status Samples.low_risk "Employed")
    Samples.world
  = Main.calculate_risk_score (Edit.with_employment_status Samples.low_risk "self_employed")
      Samples.world
  /\ Main.calculate_risk_score (Edit.with_property_area Samples.low_risk "city") Samples.world
     = Main.calculate_risk_score (Edit.with_property_area Samples.low_risk "suburban")
         Samples.world
  /\ Main.calculate_risk_score (Edit.with_education Samples.low_risk "phd") Samples.world
     = Main.calculate_risk_score (Edit.with_education Samples.low_risk "not_graduate")
         Samples.world.
Proof.
  apply (unlisted_strings_are_neutral Samples.low_risk "Employed" "city" "phd" Samples.world);
    discriminate.
Defined.

(** ** How the score moves with the whole-number fields *)

Lemma clamp_monotone (s t : Z) : s <= t -> Spec.clamp s <= Spec.clamp t.
Proof. unfold Spec.clamp. lia. Qed.

Lemma credit_history_points_monotone (m n : Z) :
  m <= n -> Spec.credit_history_points m <= Spec.credit_history_points n.
Proof.
  intros H. unfold Spec.credit_history_points.
  destruct (Z.ltb_spec 60 m), (Z.ltb_spec 60 n), (Z.ltb_spec 36 m), (Z.ltb_spec 36 n),
    (Z.ltb_spec m 12), (Z.ltb_spec n 12); lia.
Qed.

Lemma dependents_points_antitone (m n : Z) :
  0 <= m <= n -> Spec.dependents_points n <= Spec.dependents_points m.
Proof.
  intros H. unfold Spec.dependents_points.
  destruct (Z.eqb_spec m 0), (Z.eqb_spec n 0), (Z.ltb_spec 3 m), (Z.ltb_spec 3 n); lia.
Qed.

Lemma loan_term_points_antitone (m n : Z) :
  m <= n -> Spec.loan_term_points n <= Spec.loan_term_points m.
Proof.
  intros H. unfold Spec.loan_term_points.
  destruct (Z.leb_spec m 180), (Z.leb_spec n 180), (Z.ltb_spec 360 m), (Z.ltb_spec 360 n);
    lia.
Qed.

(** X5. Between two valid requests that differ in one whole-number field
    only, the score never falls with a longer credit history, and never rises
    with more dependents or a longer term. *)
Theorem score_moves_one_way (a : Main.LoanApplication) (months n term : Z) (w : World) :
  Main.valid_application a = true ->
  Main.credit_history_months a <= months ->
  Main.dependents a <= n <= 10 ->
  Main.loan_term_months a <= term <= 480 ->
  exists r r1 r2 r3 w',
    Main.calculate_risk_score a w = (Returns r, w')
    /\ Main.calculate_risk_score (Edit.with_credit_history_months a months) w = (Returns r1, w')
    /\ Main.calculate_risk_score (Edit.with_dependents a n) w = (Returns r2, w')
    /\ Main.calculate_risk_score (Edit.with_loan_term_months a term) w = (Returns r3, w')
    /\ Main.risk_score r <= Main.risk_score r1
    /\ Main.risk_score r2 <= Main.risk_score r
    /\ Main.risk_score r3 <= Main.risk_score r.
Proof.
  intros Hvalid Hmonths Hn Hterm.
  pose proof Hvalid as Hfields.
  unfold Main.valid_application in Hfields.
  apply andb_true_iff in Hfields. destruct Hfields as [Hfields Henum].
  unfold Main.field_constraints in Hfields.
  repeat (apply andb_true_iff in Hfields; destruct Hfields as [Hfields ?]).
  repeat match goal with
         | H : (_ <=? _) = true |- _ => apply Z.leb_le in H
         end.
  assert (V1 : Main.valid_application (Edit.with_credit_history_months a months) = true).
  { unfold Main.valid_application. apply andb_true_iff. split; [| exact Henum].
    unfold Main.field_constraints. cbn.
    repeat (apply andb_true_iff; split); try assumption; apply Z.leb_le; lia. }
  assert (V2 : Main.valid_application (Edit.with_dependents a n) = true).
  { unfold Main.valid_application. apply andb_true_iff. split; [| exact Henum].
    unfold Main.field_constraints. cbn.
    repeat (apply andb_true_iff; split); try assumption; apply Z.leb_le; lia. }
  assert (V3 : Main.valid_application (Edit.with_loan_term_months a term) = true).
  { unfold Main.valid_application. apply andb_true_iff. split; [| exact Henum].
    unfold Main.field_constraints. cbn.
    repeat (apply andb_true_iff; split); try assumption; apply Z.leb_le; lia. }
  do 5 eexists.
  split; [apply calculate_risk_score_run; exact Hvalid |].
  split; [apply calculate_risk_score_run; exact V1 |].
  split; [apply calculate_risk_score_run; exact V2 |].
  split; [apply calculate_risk_score_run; exact V3 |].
  cbn [Spec.assessment Main.risk_score].
  unfold Spec.raw_score. cbn.
  pose proof (credit_history_points_monotone _ _ Hmonths).
  pose proof (dependents_points_antitone (Main.dependents a) n ltac:(lia)).
  pose proof (loan_term_points_antitone (Main.loan_term_months a) term ltac:(lia)).
  repeat split; apply clamp_monotone; lia.
Qed.

Lemma score_moves_one_way_witness :
  Main.valid_application Samples.plain = true
  /\ exists r r1 r2 r3 w',
    Main.calculate_risk_score Samples.plain Samples.world = (Returns r, w')
    /\ Main.calculate_risk_score (Edit.with_credit_history_months Samples.plain 61)
         Samples.world = (Returns r1, w')
    /\ Main.calculate_risk_score (Edit.with_dependents Samples.plain 4) Samples.world
       = (Returns r2, w')
    /\ Main.calculate_risk_score (Edit.with_loan_term_months Samples.plain 361) Samples.world
       = (Returns r3, w')
    /\ Main.risk_score r <= Main.risk_score r1
    /\ Main.risk_score r2 <= Main.risk_score r
    /\ Main.risk_score r3 <= Main.risk_score r.
Proof.
  split; [reflexivity |].
  apply (score_moves_one_way Samples.plain 61 4 361 Samples.world);
    [reflexivity | | |]; cbn; lia.
Defined.

(** ** The explanations *)

(** No float is below a positive float and above a greater one, when the
    two have different exponents. *)
Lemma float_between (x lo hi : float) (m1 m2 : positive) (e1 e2 : Z) :
  Prim2SF lo = S754_finite false m1 e1 ->
  Prim2SF hi = S754_finite false m2 e2 ->
  e1 < e2 ->
  (x <? lo)%float = true -> (hi <? x)%float = true -> False.
Proof.
  intros Hlo Hhi He. rewrite !ltb_spec, Hlo, Hhi. unfold SFltb.
  destruct (Prim2SF x) as [s | s | | s m e]; cbn.
  - discriminate.
  - destruct s; discriminate.
  - discriminate.
  - destruct s; [discriminate |].
    destruct (Z.compare_spec e e1), (Z.compare_spec e2 e); try discriminate; lia.
Qed.

Lemma low_and_high_ratio (x : float) :
  (x <? 30)%float = true -> (x >? 40)%float = true -> False.
Proof. apply (float_between x 30 40 _ _ _ _ eq_refl eq_refl). reflexivity. Qed.

Lemma small_and_large_ratio (x : float) :
  (x <? 3)%float = true -> (x >? 4)%float = true -> False.
Proof. apply (float_between x 3 4 _ _ _ _ eq_refl eq_refl). reflexivity. Qed.

Lemma In_fired (rules : list (bool * string)) (t : string) :
  In t (Spec.fired rules) <-> In (true, t) rules.
Proof.
  unfold Spec.fired. rewrite in_map_iff. split.
  - intros [[c t'] [Ht Hin]]. apply filter_In in Hin. cbn in *. destruct Hin as [Hin Hc].
    subst. exact Hin.
  - intros Hin. exists (true, t). split; [reflexivity |].
    apply filter_In. split; [exact Hin | reflexivity].
Qed.

Lemma In_or_placeholder (entries : list string) (t : string) :
  t <> Spec.placeholder -> In t (Spec.or_placeholder entries) -> In t entries.
Proof.
  intros Ht. destruct entries as [| e l]; cbn; [| tauto].
  intros [H | []]. congruence.
Qed.

(** What the two lists of any returned assessment are. *)
Lemma key_factors_of_outcome (a : Main.LoanApplication) (w w' : World)
    (r : Main.RiskAssessment) :
  Main.calculate_risk_score a w = (Returns r, w') ->
  Main.dict_get (Main.key_factors r) "positive"
  = Some (Spec.or_placeholder
            (Spec.fired (Spec.positive_rules a (Spec.debt_to_income a)
                           (Spec.loan_to_income a))))
  /\ Main.dict_get (Main.key_factors r) "negative"
     = Some (Spec.or_placeholder
               (Spec.fired (Spec.negative_rules a (Spec.debt_to_income a)
                              (Spec.loan_to_income a) (Spec.payment_to_income a)))).
Proof.
  rewrite calculate_risk_score_cases.
  destruct (Main.applicant_income a =? 0)%float; [discriminate |].
  destruct (PrimFloat.is_infinity _); [discriminate |].
  destruct (PyNum.to_float (Main.loan_term_months a) =? 0)%float; [discriminate |].
  intros H. injection H as Hr _. subst r. split; reflexivity.
Qed.

(** X6. The two lists of a returned assessment never contradict each other:
    no request, valid or not, is told both that its debt-to-income ratio is
    low and that its debt burden is high, both that the loan amount is
    reasonable and that the loan is large relative to income, both that its
    credit history is established and that it is limited, or both that its
    employment is stable and that it has no stable income source. *)
Theorem explanations_do_not_contradict (a : Main.LoanApplication) (w w' : World)
    (r : Main.RiskAssessment) (positive negative : list string) :
  Main.calculate_risk_score a w = (Returns r, w') ->
  Main.dict_get (Main.key_factors r) "positive" = Some positive ->
  Main.dict_get (Main.key_factors r) "negative" = Some negative ->
  ~ (In "Low debt-to-income ratio" positive /\ In "High existing debt burden" negative)
  /\ ~ (In "Reasonable loan amount" positive /\ In "Large loan relative to income" negative)
  /\ ~ (In "Established credit history" positive /\ In "Limited credit history" negative)
  /\ ~ (In "Stable employment" positive /\ In "No stable income source" negative).
Proof.
  intros Hrun Hpos Hneg.
  destruct (key_factors_of_outcome a w w' r Hrun) as [Hp Hn].
  rewrite Hp in Hpos. rewrite Hn in Hneg.
  injection Hpos as <-. injection Hneg as <-.
  assert (P : forall t, t <> Spec.placeholder ->
              In t (Spec.or_placeholder
                      (Spec.fired (Spec.positive_rules a (Spec.debt_to_income a)
                                     (Spec.loan_to_income a)))) ->
              In (true, t) (Spec.positive_rules a (Spec.debt_to_income a)
                              (Spec.loan_to_income a))).
  { intros t Ht H. apply In_fired. apply In_or_placeholder; assumption. }
  assert (N : forall t, t <> Spec.placeholder ->
              In t (Spec.or_placeholder
                      (Spec.fired (Spec.negative_rules a (Spec.debt_to_income a)
                                     (Spec.loan_to_income a) (Spec.payment_to_income a)))) ->
              In (true, t) (Spec.negative_rules a (Spec.debt_to_income a)
                              (Spec.loan_to_income a) (Spec.payment_to_income a))).
  { intros t Ht H. apply In_fired. apply In_or_placeholder; assumption. }
  repeat split; intros [H1 H2];
    apply P in H1; try discriminate; apply N in H2; try discriminate;
    cbn in H1, H2;
    repeat (destruct H1 as [H1 | H1]; [injection H1 as H1; try discriminate |]);
    try contradiction.
  all: repeat (destruct H2 as [H2 | H2]; [injection H2 as H2; try discriminate |]);
    try contradiction.
  - exact (low_and_high_ratio _ H1 H2).
  - exact (small_and_large_ratio _ H1 H2).
  - apply Z.ltb_lt in H1, H2. lia.
  - apply String.eqb_eq in H1, H2. congruence.
Qed.

Lemma explanations_do_not_contradict_witness :
  exists r w' positive negative,
    Main.calculate_risk_score Samples.high_risk Samples.world = (Returns r, w')
    /\ Main.dict_get (Main.key_factors r) "positive" = Some positive
    /\ Main.dict_get (Main.key_factors r) "negative" = Some negative
    /\ ~ (In "Low debt-to-income ratio" positive /\ In "High existing debt burden" negative)
    /\ ~ (In "Reasonable loan amount" positive /\ In "Large loan relative to income" negative)
    /\ ~ (In "Established credit history" positive /\ In "Limited credit history" negative)
    /\ ~ (In "Stable employment" positive /\ In "No stable income source" negative).
Proof.
  do 4 eexists.
  split; [apply calculate_risk_score_run; reflexivity |].
  split; [reflexivity |]. split; [reflexivity |].
  exact (explanations_do_not_contradict Samples.high_risk Samples.world _ _ _ _
           (calculate_risk_score_run Samples.high_risk Samples.world eq_refl)
           eq_refl eq_refl).
Defined.

Lemma fired_length (rules : list (bool * string)) :
  (List.length (Spec.fired rules) <= List.length rules)%nat.
Proof.
  unfold Spec.fired. rewrite length_map. apply filter_length_le.
Qed.

Lemma fired_NoDup (rules : list (bool * string)) :
  NoDup (map snd rules) -> NoDup (Spec.fired rules).
Proof.
  unfold Spec.fired. induction rules as [| [c t] rules IH]; cbn; intros H.
  - constructor.
  - inversion H as [| ? ? Hnotin Hrest]; subst.
    destruct c; cbn; [| exact (IH Hrest)].
    constructor; [| exact (IH Hrest)].
    intros Hin. apply Hnotin. apply in_map_iff in Hin. destruct Hin as [[c' t'] [E Hin]].
    apply filter_In in Hin. apply in_map_iff. exists (c', t'). tauto.
Qed.

Lemma or_placeholder_shape (entries : list string) (bound : nat) :
  (List.length entries <= bound)%nat -> (1 <= bound)%nat -> NoDup entries ->
  (1 <= List.length (Spec.or_placeholder entries) <= bound)%nat
  /\ NoDup (Spec.or_placeholder entries).
Proof.
  intros Hlen Hbound Hnodup. destruct entries as [| e l]; cbn in *.
  - split; [lia |]. constructor; [intros [] | constructor].
  - split; [lia | exact Hnodup].
Qed.

(** X7. Each of the two lists of a returned assessment, whatever the
    request, has at least one entry and at most five, and no entry twice. *)
Theorem key_factors_shape (a : Main.LoanApplication) (w w' : World)
    (r : Main.RiskAssessment) :
  Main.calculate_risk_score a w = (Returns r, w') ->
  exists positive negative,
    Main.key_factors r = [("positive", positive); ("negative", negative)]
    /\ (1 <= List.length positive <= 5)%nat /\ NoDup positive
    /\ (1 <= List.length negative <= 5)%nat /\ NoDup negative.
Proof.
  rewrite calculate_risk_score_cases.
  destruct (Main.applicant_income a =? 0)%float; [discriminate |].
  destruct (PrimFloat.is_infinity _); [discriminate |].
  destruct (PyNum.to_float (Main.loan_term_months a) =? 0)%float; [discriminate |].
  intros H. injection H as Hr _. subst r.
  cbn [Spec.assessment Main.key_factors]. do 2 eexists. split; [reflexivity |].
  destruct (or_placeholder_shape
              (Spec.fired (Spec.positive_rules a (Spec.debt_to_income a)
                             (Spec.loan_to_income a))) 5) as [L1 N1].
  { apply (fired_length (Spec.positive_rules _ _ _)). }
  { lia. }
  { apply fired_NoDup. cbn. repeat constructor; cbn; intuition discriminate. }
  destruct (or_placeholder_shape
              (Spec.fired (Spec.negative_rules a (Spec.debt_to_income a)
                             (Spec.loan_to_income a) (Spec.payment_to_income a))) 5)
    as [L2 N2].
  { apply (fired_length (Spec.negative_rules _ _ _ _)). }
  { lia. }
  { apply fired_NoDup. cbn. repeat constructor; cbn; intuition discriminate. }
  tauto.
Qed.

Lemma key_factors_shape_witness :
  exists r w',
    Main.calculate_risk_score Samples.plain Samples.world = (Returns r, w')
    /\ exists positive negative,
         Main.key_factors r = [("positive", positive); ("negative", negative)]
         /\ (1 <= List.length positive <= 5)%nat /\ NoDup positive
         /\ (1 <= List.length negative <= 5)%nat /\ NoDup negative.
Proof.
  do 2 eexists. split; [apply calculate_risk_score_run; reflexivity |].
  exact (key_factors_shape Samples.plain Samples.world _ _
           (calculate_risk_score_run Samples.plain Samples.world eq_refl)).
Defined.

(** ** The application id *)

Lemma strftime_stamp (d : datetime) :
  PyDatetime.strftime d "%Y%m%d%H%M%S"
  = (PyStr.zero_padded 4 (PyDatetime.year d)
     ++ PyStr.zero_padded 2 (PyDatetime.month d)
     ++ PyStr.zero_padded 2 (PyDatetime.day d)
     ++ PyStr.zero_padded 2 (hour d)
     ++ PyStr.zero_padded 2 (minute d)
     ++ PyStr.zero_padded 2 (second d) ++ "")%string.
Proof. reflexivity. Qed.

Lemma string_compare_refl (s : string) : (s ?= s)%string = Eq.
Proof.
  induction s as [| c s IH]; simpl; [reflexivity |].
  unfold Ascii.compare. rewrite N.compare_refl. exact IH.
Qed.

Lemma stamp_length (d : datetime) :
  String.length (PyDatetime.strftime d "%Y%m%d%H%M%S") = 14%nat.
Proof.
  rewrite strftime_stamp. rewrite !string_length_append, !zero_padded_length. reflexivity.
Qed.

(** Two stamps of wall-clock readings are the same string only for the same
    second. *)
Lemma stamp_injective (d1 d2 : datetime) :
  wall_clock_reading d1 -> wall_clock_reading d2 ->
  PyDatetime.strftime d1 "%Y%m%d%H%M%S" = PyDatetime.strftime d2 "%Y%m%d%H%M%S" ->
  same_second d1 d2.
Proof.
  intros (F1 & H1 & M1 & S1) (F2 & H2 & M2 & S2) Heq.
  pose proof (string_compare_refl (PyDatetime.strftime d2 "%Y%m%d%H%M%S")) as C.
  rewrite <- Heq in C at 1. clear Heq. rewrite !strftime_stamp in C.
  unfold PyDatetime.year, PyDatetime.month, PyDatetime.day in C.
  pose proof (four_digit_years _ F1) as R1. pose proof (four_digit_years _ F2) as R2.
  pose proof (date_key_order (toordinal d1) (toordinal d2)) as O12.
  pose proof (date_key_order (toordinal d2) (toordinal d1)) as O21.
  unfold date_key in O12, O21.
  destruct (PyDatetime.ord2ymd (toordinal d1)) as [[y1 m1] a1].
  destruct (PyDatetime.ord2ymd (toordinal d2)) as [[y2 m2] a2].
  cbn [fst snd] in C.
  do 6 (rewrite compare_app_same_length in C by (rewrite !zero_padded_length; reflexivity)).
  rewrite !zero_padded_compare in C by (simpl; lia).
  unfold same_second.
  destruct (Z.compare_spec y1 y2); try discriminate C.
  destruct (Z.compare_spec m1 m2); try discriminate C.
  destruct (Z.compare_spec a1 a2); try discriminate C.
  destruct (Z.compare_spec (hour d1) (hour d2)); try discriminate C.
  destruct (Z.compare_spec (minute d1) (minute d2)); try discriminate C.
  destruct (Z.compare_spec (second d1) (second d2)); try discriminate C.
  repeat split; try assumption; lia.
Qed.

Lemma stamp_of_second (d1 d2 : datetime) :
  same_second d1 d2 ->
  PyDatetime.strftime d1 "%Y%m%d%H%M%S" = PyDatetime.strftime d2 "%Y%m%d%H%M%S".
Proof.
  intros (Ho & Hh & Hm & Hs). rewrite !strftime_stamp.
  unfold PyDatetime.year, PyDatetime.month, PyDatetime.day.
  rewrite Ho, Hh, Hm, Hs. reflexivity.
Qed.

(** The id of any returned assessment. *)
Lemma application_id_of_outcome (a : Main.LoanApplication) (w w' : World)
    (r : Main.RiskAssessment) :
  Main.calculate_risk_score a w = (Returns r, w') ->
  Main.application_id r
  = ("APP-" ++ PyDatetime.strftime (clock w (clock_reads w)) "%Y%m%d%H%M%S")%string.
Proof.
  rewrite calculate_risk_score_cases.
  destruct (Main.applicant_income a =? 0)%float; [discriminate |].
  destruct (PrimFloat.is_infinity _); [discriminate |].
  destruct (PyNum.to_float (Main.loan_term_months a) =? 0)%float; [discriminate |].
  intros H. injection H as Hr _. subst r. reflexivity.
Qed.

(** X8. The application id is a string of 18 characters that names the second
    of the first reading of the clock and nothing of the request: two
    assessments, of the same request or not, carry the same id exactly when
    the clock read the same date and time to the second. *)
Theorem application_id_names_the_second (a1 a2 : Main.LoanApplication)
    (w1 w1' w2 w2' : World) (r1 r2 : Main.RiskAssessment) :
  Main.calculate_risk_score a1 w1 = (Returns r1, w1') ->
  Main.calculate_risk_score a2 w2 = (Returns r2, w2') ->
  wall_clock_reading (clock w1 (clock_reads w1)) ->
  wall_clock_reading (clock w2 (clock_reads w2)) ->
  String.length (Main.application_id r1) = 18%nat
  /\ (Main.application_id r1 = Main.application_id r2
      <-> same_second (clock w1 (clock_reads w1)) (clock w2 (clock_reads w2))).
Proof.
  intros Hrun1 Hrun2 Hclock1 Hclock2.
  rewrite (application_id_of_outcome _ _ _ _ Hrun1), (application_id_of_outcome _ _ _ _ Hrun2).
  split.
  - rewrite string_length_append, stamp_length. reflexivity.
  - split.
    + intros Heq. apply stamp_injective; try assumption.
      cbn [String.append] in Heq. congruence.
    + intros Hsame. rewrite (stamp_of_second _ _ Hsame). reflexivity.
Qed.

Lemma application_id_names_the_second_witness :
  exists r1 r2 w1' w2',
    Main.calculate_risk_score Samples.low_risk Samples.world = (Returns r1, w1')
    /\ Main.calculate_risk_score Samples.high_risk Samples.world = (Returns r2, w2')
    /\ wall_clock_reading (clock Samples.world (clock_reads Samples.world))
    /\ String.length (Main.application_id r1) = 18%nat
    /\ (Main.application_id r1 = Main.application_id r2
        <-> same_second (clock Samples.world (clock_reads Samples.world))
                        (clock Samples.world (clock_reads Samples.world))).
Proof.
  assert (Hclock : wall_clock_reading (clock Samples.world (clock_reads Samples.world))).
  { unfold wall_clock_reading, four_digit_date, PyDatetime.MAXORDINAL. cbn. lia. }
  do 4 eexists.
  split; [apply calculate_risk_score_run; reflexivity |].
  split; [apply calculate_risk_score_run; reflexivity |].
  split; [exact Hclock |].
  exact (application_id_names_the_second Samples.low_risk Samples.high_risk
           Samples.world _ Samples.world _ _ _
           (calculate_risk_score_run Samples.low_risk Samples.world eq_refl)
           (calculate_risk_score_run Samples.high_risk Samples.world eq_refl)
           Hclock Hclock).
Defined.

(** ** The rows of the generator *)

Lemma row_labelled (income loan_amount loan_term credit_history : Z)
    (employment property_area : string) (dependents : Z) (education : string)
    (existing_debt : Z) (date : datetime) :
  labelled_by_score
    (Dataset.row income loan_amount loan_term credit_history employment property_area
                 dependents education existing_debt date).
Proof.
  unfold labelled_by_score, Dataset.row.
  cbn [GenerateData.risk_score GenerateData.risk_category GenerateData.decision].
  set (score := Spec.clamp _).
  pose proof (clamp_bounds
                (Spec.raw_score
                   (Dataset.request income loan_amount loan_term credit_history employment
                      property_area dependents education existing_debt)
                   (Spec.debt_to_income
                      (Dataset.request income loan_amount loan_term credit_history employment
                         property_area dependents education existing_debt))
                   (Spec.loan_to_income
                      (Dataset.request income loan_amount loan_term credit_history employment
                         property_area dependents education existing_debt)))) as Hbounds.
  fold score in Hbounds. split; [exact Hbounds |].
  unfold Spec.category, Spec.recommendation.
  destruct (Z.leb_spec 70 score); [left; repeat split; lia |].
  destruct (Z.leb_spec 50 score); [right; left | right; right]; repeat split; lia.
Qed.

(** X9. When the clock reads a date from 1001-01-01 on,
    [generate_application] returns a row, after one reading of the clock and
    ten draws, whatever the draws are.  The row's profile lies in the sampled
    ranges, its debt is at most half its income, and its date is the print of
    a date at most 365 days before the reading, which is a date from
    1000-01-01 on. *)
Theorem generated_row_in_ranges (w : World) :
  365243 <= toordinal (clock w (clock_reads w)) <= PyDatetime.MAXORDINAL ->
  exists row date,
    GenerateData.generate_application w = (Returns row, after_application w)
    /\ 25000 <= GenerateData.applicant_income row <= 150000
    /\ 50000 <= GenerateData.loan_amount row <= 500000
    /\ In (GenerateData.loan_term_months row) [60; 120; 180; 240; 360]
    /\ 0 <= GenerateData.credit_history_months row <= 120
    /\ In (GenerateData.employment_status row) ["employed"; "self_employed"; "unemployed"]
    /\ In (GenerateData.property_area row) ["urban"; "suburban"; "rural"]
    /\ 0 <= GenerateData.dependents row <= 4
    /\ In (GenerateData.education row) ["graduate"; "not_graduate"]
    /\ 0 <= 2 * GenerateData.existing_debt row <= GenerateData.applicant_income row
    /\ GenerateData.application_date row = PyDatetime.strftime date "%Y-%m-%d"
    /\ four_digit_date date
    /\ toordinal (clock w (clock_reads w)) - 365 <= toordinal date
       <= toordinal (clock w (clock_reads w)).
Proof.
  intros Hlate.
  assert (Hclock : 365 < toordinal (clock w (clock_reads w)) <= PyDatetime.MAXORDINAL)
    by lia.
  destruct (generate_application_run w Hclock)
    as (income & la & term & ch & emp & area & dep & edu & debt & date & Hs & Hdate & Hrun).
  destruct Hs as (B1 & B2 & I3 & B4 & I5 & I6 & I7 & I8 & B9).
  eexists. exists date. split; [exact Hrun |].
  cbn [Dataset.row GenerateData.applicant_income GenerateData.loan_amount
       GenerateData.loan_term_months GenerateData.credit_history_months
       GenerateData.employment_status GenerateData.property_area GenerateData.dependents
       GenerateData.education GenerateData.existing_debt GenerateData.application_date].
  pose proof (Z.mul_div_le income 2 ltac:(lia)).
  unfold four_digit_date.
  repeat split; try assumption; try lia.
  - cbn in I5 |- *. tauto.
  - cbn in I6 |- *. tauto.
  - cbn in I7. lia.
  - cbn in I7. lia.
  - cbn in I8 |- *. tauto.
Qed.

Lemma generated_row_in_ranges_witness :
  365243 <= toordinal (clock Samples.world (clock_reads Samples.world))
  <= PyDatetime.MAXORDINAL
  /\ exists row date,
    GenerateData.generate_application Samples.world
    = (Returns row, after_application Samples.world)
    /\ 25000 <= GenerateData.applicant_income row <= 150000
    /\ 50000 <= GenerateData.loan_amount row <= 500000
    /\ In (GenerateData.loan_term_months row) [60; 120; 180; 240; 360]
    /\ 0 <= GenerateData.credit_history_months row <= 120
    /\ In (GenerateData.employment_status row) ["employed"; "self_employed"; "unemployed"]
    /\ In (GenerateData.property_area row) ["urban"; "suburban"; "rural"]
    /\ 0 <= GenerateData.dependents row <= 4
    /\ In (GenerateData.education row) ["graduate"; "not_graduate"]
    /\ 0 <= 2 * GenerateData.existing_debt row <= GenerateData.applicant_income row
    /\ GenerateData.application_date row = PyDatetime.strftime date "%Y-%m-%d"
    /\ four_digit_date date
    /\ toordinal (clock Samples.world (clock_reads Samples.world)) - 365 <= toordinal date
       <= toordinal (clock Samples.world (clock_reads Samples.world)).
Proof.
  assert (H : 365243 <= toordinal (clock Samples.world (clock_reads Samples.world))
              <= PyDatetime.MAXORDINAL).
  { unfold PyDatetime.MAXORDINAL. cbn. lia. }
  split; [exact H |].
  exact (generated_row_in_ranges Samples.world H).
Defined.

(** The loop, with what it leaves of the world. *)
Lemma append_applications_rows (count : nat) :
  forall (applications : list GenerateData.Row) (w : World),
    Dataset.clock_allows_a_year_back w ->
    exists new,
      GenerateData.append_applications count applications w
      = (Returns (applications ++ new), after_applications count w)
      /\ List.length new = count
      /\ Forall (fun row => sampled_row row /\ labelled_by_score row) new.
Proof.
  induction count as [| n IH]; intros applications w Hclock.
  - exists []. rewrite app_nil_r. destruct w. repeat split. constructor.
  - cbn [GenerateData.append_applications].
    destruct (generate_application_run w (Hclock _))
      as (income & la & term & ch & emp & area & dep & edu & debt & date & Hs & _ & Hrun).
    step Hrun.
    destruct (IH (applications ++ [Dataset.row income la term ch emp area dep edu debt date])
                 (after_application w)) as (new & Hrest & Hlen & Hrows).
    { intros i. apply Hclock. }
    rewrite Hrest. rewrite <- app_assoc.
    exists (Dataset.row income la term ch emp area dep edu debt date :: new).
    split; [| split].
    + cbn [app]. f_equal. unfold after_applications, after_application.
      cbn [clock clock_reads entropy entropy_draws]. f_equal; lia.
    + cbn [List.length]. rewrite Hlen. reflexivity.
    + constructor; [| exact Hrows]. split; [exact Hs | apply row_labelled].
Qed.

(** X10. When the clock reads dates from 0002-01-01 on, every row of the
    dataset that [generate_dataset] returns has a profile in the sampled
    ranges, a score from 0 to 100, and the category and the decision of that
    score: LOW and APPROVED from 70 on, MEDIUM and REVIEW from 50 on, HIGH
    and DECLINED below.  Making the dataset reads the clock once and draws
    ten times for each row. *)
Theorem dataset_rows_well_formed (num_applications : Z) (w : World) :
  Dataset.clock_allows_a_year_back w ->
  exists rows,
    GenerateData.generate_dataset num_applications w
    = (Returns rows, after_applications (Z.to_nat num_applications) w)
    /\ Forall (fun row => sampled_row row /\ labelled_by_score row) rows.
Proof.
  intros Hclock. unfold GenerateData.generate_dataset.
  destruct (append_applications_rows (Z.to_nat num_applications) [] w Hclock)
    as (new & Hrun & _ & Hrows).
  step Hrun. cbn [app]. unfold ret.
  eexists. split; [reflexivity |].
  apply (Permutation_Forall (sort_by_key_perm GenerateData.application_date new)).
  exact Hrows.
Qed.

Lemma dataset_rows_well_formed_witness :
  Dataset.clock_allows_a_year_back Samples.world
  /\ exists rows,
    GenerateData.generate_dataset 3 Samples.world
    = (Returns rows, after_applications 3 Samples.world)
    /\ Forall (fun row => sampled_row row /\ labelled_by_score row) rows.
Proof.
  assert (H : Dataset.clock_allows_a_year_back Samples.world).
  { intros i. unfold PyDatetime.MAXORDINAL. simpl. lia. }
  split; [exact H |].
  exact (dataset_rows_well_formed 3 Samples.world H).
Defined.

(** X11. Asked for no row, or for a negative number of rows,
    [generate_dataset] returns the empty list and leaves the world as it is,
    on any clock: the count is the bound of a [range], not checked. *)
Theorem empty_dataset (num_applications : Z) (w : World) :
  num_applications <= 0 ->
  GenerateData.generate_dataset num_applications w = (Returns [], w).
Proof.
  intros H. unfold GenerateData.generate_dataset.
  replace (Z.to_nat num_applications) with O by lia. reflexivity.
Qed.

Lemma empty_dataset_witness :
  -5 <= 0 /\ GenerateData.generate_dataset (-5) Samples.other_world
             = (Returns [], Samples.other_world).
Proof.
  split; [lia |]. apply (empty_dataset (-5) Samples.other_world). lia.
Defined.
